(** * BirdTrail notification engine: a shallow embedding

    The development follows the server side of the repository:
    - [server/src/db.js]       the subscription table and its cursor write,
    - [server/src/ebird.js]    the engine's feed client,
    - [server/src/notifier.js] the polling cycle ([startNotifier], [execute]),
    and, for comparison, the browser's feed client of [src/lib/ebird.ts].

    JavaScript values are modelled as follows.  A string is a [string]; a
    nullable TEXT column is an [option string]; an INTEGER column and a
    millisecond timestamp are a [Z]; the result of [Date.parse] is an
    [option Z] where [None] stands for [NaN]; a REAL column is a [Q].
    [await] points are sequenced in program order: a cycle processes its
    subscriptions one after the other, each from the row object listed at
    the start of the cycle and against the table as it is when the cursor
    write runs.  The collaborators (network, SMS gateway, storage engine,
    clock) are parameters of a cycle. *)

From Stdlib Require Import ZArith QArith String Ascii List Bool Lia.
From Stdlib Require Import DecimalString Sorted Permutation.
From stdpp Require Import base tactics option list strings.

Import ListNotations.
Local Open Scope string_scope.
Local Open Scope Z_scope.

(** ** JavaScript preliminaries *)

Module Js.

(** An [Error] object, identified by its message. *)
Record Error := mkError { message : string }.

(** How a call completes: it returns a value or throws. *)
Inductive Completion (A : Type) : Type :=
| Return (a : A)
| Throw (e : Error).
Arguments Return {A} a.
Arguments Throw {A} e.

(** Truthiness of a string and of a nullable string: [null] and the
    empty string are falsy. *)
Definition truthy_string (s : string) : bool := negb (s =? "")%string.

Definition truthy (v : option string) : bool :=
  match v with
  | Some s => truthy_string s
  | None => false
  end.

(** [n.toString()] for an integer. *)
Definition toString (n : Z) : string := NilZero.string_of_int (Z.to_int n).

(** [parts.filter(Boolean).join(' ')] on an array of strings. *)
Fixpoint join (sep : string) (parts : list string) : string :=
  match parts with
  | [] => ""
  | [p] => p
  | p :: rest => (p ++ sep ++ join sep rest)%string
  end.

Definition filter_Boolean (parts : list string) : list string :=
  List.filter truthy_string parts.

(** [Response.ok] of the Fetch standard: the status is in 200..299. *)
Definition status_ok (status : Z) : bool := (200 <=? status) && (status <=? 299).

End Js.

Import Js.

(** ** ISO-8601 instants

    [Date.parse] and [Date.prototype.toISOString] belong to the host.  The
    engine is verified for an arbitrary pair of them (section variables
    below).  To run the model on concrete data this module gives the
    fragment both agree on: the 24-character UTC form
    [YYYY-MM-DDTHH:mm:ss.sssZ], for years 0000 to 9999. *)

Module Iso.

Definition days_from_civil (y m d : Z) : Z :=
  let y' := if m <=? 2 then y - 1 else y in
  let era := y' / 400 in
  let yoe := y' - era * 400 in
  let mp := if 2 <? m then m - 3 else m + 9 in
  let doy := (153 * mp + 2) / 5 + d - 1 in
  let doe := yoe * 365 + yoe / 4 - yoe / 100 + doy in
  era * 146097 + doe - 719468.

Definition civil_from_days (z : Z) : Z * Z * Z :=
  let z' := z + 719468 in
  let era := z' / 146097 in
  let doe := z' - era * 146097 in
  let yoe := (doe - doe / 1460 + doe / 36524 - doe / 146096) / 365 in
  let doy := doe - (365 * yoe + yoe / 4 - yoe / 100) in
  let mp := (5 * doy + 2) / 153 in
  let d := doy - (153 * mp + 2) / 5 + 1 in
  let m := if mp <? 10 then mp + 3 else mp - 9 in
  let y := yoe + era * 400 in
  (if m <=? 2 then y + 1 else y, m, d).

Definition is_leap (y : Z) : bool :=
  ((y mod 4 =? 0) && negb (y mod 100 =? 0)) || (y mod 400 =? 0).

Definition days_in_month (y m : Z) : Z :=
  if m =? 2 then (if is_leap y then 29 else 28)
  else if (m =? 4) || (m =? 6) || (m =? 9) || (m =? 11) then 30
  else 31.

Definition digit (c : ascii) : option Z :=
  let n := Z.of_N (N_of_ascii c) in
  if (48 <=? n) && (n <=? 57) then Some (n - 48) else None.

(** The number written by a run of decimal digits. *)
Fixpoint number_from (acc : Z) (cs : list ascii) : option Z :=
  match cs with
  | [] => Some acc
  | c :: rest =>
      match digit c with
      | Some d => number_from (10 * acc + d) rest
      | None => None
      end
  end.

Definition field (from len : nat) (cs : list ascii) : option Z :=
  number_from 0 (firstn len (skipn from cs)).

Definition sep_at (i : nat) (c : ascii) (cs : list ascii) : bool :=
  match nth_error cs i with
  | Some c' => Ascii.eqb c c'
  | None => false
  end.

Definition parse (s : string) : option Z :=
  let cs := list_ascii_of_string s in
  if negb (Nat.eqb (List.length cs) 24) then None
  else if negb (sep_at 4 "-" cs && sep_at 7 "-" cs && sep_at 10 "T" cs
                && sep_at 13 ":" cs && sep_at 16 ":" cs && sep_at 19 "." cs
                && sep_at 23 "Z" cs) then None
  else
    match field 0 4 cs, field 5 2 cs, field 8 2 cs,
          field 11 2 cs, field 14 2 cs, field 17 2 cs, field 20 3 cs with
    | Some y, Some mo, Some d, Some h, Some mi, Some sec, Some ms =>
        if (1 <=? mo) && (mo <=? 12) && (1 <=? d) && (d <=? days_in_month y mo)
           && (h <=? 23) && (mi <=? 59) && (sec <=? 59)
        then Some ((((days_from_civil y mo d * 24 + h) * 60 + mi) * 60 + sec) * 1000 + ms)
        else None
    | _, _, _, _, _, _, _ => None
    end.

Definition digit_char (d : Z) : ascii := ascii_of_N (Z.to_N (48 + d mod 10)).

(** [n] written with exactly [width] decimal digits. *)
Fixpoint pad (width : nat) (n : Z) (acc : string) : string :=
  match width with
  | O => acc
  | S w => pad w (n / 10) (String (digit_char n) acc)
  end.

Definition toISOString (t : Z) : string :=
  let day := t / 86400000 in
  let tod := t mod 86400000 in
  let '(y, m, d) := civil_from_days day in
  let time := pad 2 (tod / 3600000) (String ":" (pad 2 (tod / 60000 mod 60)
                (String ":" (pad 2 (tod / 1000 mod 60)
                (String "." (pad 3 (tod mod 1000) "Z")))))) in
  pad 4 y (String "-" (pad 2 m (String "-" (pad 2 d (String "T" time))))).

End Iso.

(** ** The sighting feed ([server/src/ebird.js], [src/lib/ebird.ts]) *)

Module Ebird.

(** [interface Observation] of [src/lib/ebird.ts]. *)
Record Observation := mkObservation {
  speciesCode : string;
  comName : string;
  sciName : string;
  locName : string;
  lat : Q;
  lng : Q;
  obsDt : string;
  howMany : option Z;
  distance : option Q;
  obsValid : bool;
  obsReviewed : bool;
  locationPrivate : bool;
  subId : string
}.

(** The query sent to [/data/obs/geo/recent/{speciesCode}]: the path
    parameter, the search parameters and the token header. *)
Record Request := mkRequest {
  path_speciesCode : string;
  param_lat : Q;
  param_lng : Q;
  param_dist : Z;
  param_back : Z;
  param_maxResults : option string;
  header_token : string
}.

(** What [response.json()] gives: a rejection on a malformed body, a
    value that is not an array, or an array of observations. *)
Inductive Json :=
| Malformed (e : Error)
| NotArray
| Array (observations : list Observation).

Record Response := mkResponse {
  status : Z;
  statusText : string;
  text : string;
  json : Json
}.

Definition ok (r : Response) : bool := status_ok (status r).

(** The network: [fetch] rejects or resolves to a response. *)
Inductive Fetched :=
| Rejected (e : Error)
| Resolved (r : Response).

Definition Network := Request -> Fetched.

(** The value the engine's client resolves to. *)
Inductive Feed :=
| NonArray
| Observations (l : list Observation).

(** [fetchRecentObservations] of [server/src/ebird.js]. *)
Definition fetchRecentObservations (fetch : Network)
    (speciesCode : string) (latitude longitude : Q)
    (radiusMiles lookBackDays : Z) (apiKey : string) : Completion Feed :=
  if negb (truthy_string apiKey) then
    Throw (mkError "Missing eBird API key for backend")
  else
    match fetch (mkRequest speciesCode latitude longitude radiusMiles
                   lookBackDays (Some "10") apiKey) with
    | Rejected e => Throw e
    | Resolved response =>
        if negb (ok response) then
          Throw (mkError ("eBird API returned " ++ toString (status response)
                          ++ " " ++ statusText response ++ ": "
                          ++ text response)%string)
        else
          match json response with
          | Malformed e => Throw e
          | NotArray => Return NonArray
          | Array l => Return (Observations l)
          end
    end.

(** *** The browser's client ([src/lib/ebird.ts]) *)

Section Browser.

(** [new Date(s).getTime()], [None] for [NaN]. *)
Variable getTime : string -> option Z.

(** The comparator handed to [sort]: negative, zero or positive; a
    [NaN] difference counts as zero. *)
Definition compareFn (a b : Observation) : comparison :=
  match distance a, distance b with
  | Some da, Some db => (da ?= db)%Q
  | _, _ =>
      match getTime (obsDt b), getTime (obsDt a) with
      | Some tb, Some ta => (tb ?= ta)%Z
      | _, _ => Eq
      end
  end.

Fixpoint insert_sorted (x : Observation) (l : list Observation) : list Observation :=
  match l with
  | [] => [x]
  | y :: rest =>
      match compareFn x y with
      | Gt => y :: insert_sorted x rest
      | _ => x :: l
      end
  end.

(** [observations.sort(compareFn)], as a stable insertion sort. *)
Definition sort (l : list Observation) : list Observation :=
  fold_right insert_sorted [] l.

Definition fetchRecentObservations_browser (fetch : Network)
    (speciesCode : string) (latitude longitude : Q)
    (radiusMiles lookBackDays : Z) (apiKey : string)
    : Completion (list Observation) :=
  if negb (truthy_string apiKey) then
    Throw (mkError "Missing eBird API key")
  else
    match fetch (mkRequest speciesCode latitude longitude radiusMiles
                   lookBackDays None apiKey) with
    | Rejected e => Throw e
    | Resolved response =>
        if negb (ok response) then
          if status response =? 404 then Return []
          else Throw (mkError "Unable to load recent sightings from eBird")
        else
          match json response with
          | Malformed e => Throw e
          | NotArray => Throw (mkError "observations.sort is not a function")
          | Array l => Return (sort l)
          end
    end.

End Browser.

End Ebird.

(** ** The subscription table ([server/src/db.js]) *)

Module Db.

(** A row of [subscriptions]. *)
Record Subscription := mkSubscription {
  id : Z;
  phone : string;
  speciesCode : string;
  speciesCommonName : string;
  locationLabel : string;
  latitude : Q;
  longitude : Q;
  radiusMiles : Z;
  lookBackDays : Z;
  createdAt : string;
  lastObservationId : option string;
  lastNotifiedAt : option string
}.

Definition Table := list Subscription.

Definition getSubscriptionById (db : Table) (i : Z) : option Subscription :=
  List.find (fun row => id row =? i) db.

(** [ORDER BY createdAt DESC], rows with equal keys in table order. *)
Fixpoint insert_desc (row : Subscription) (sorted : Table) : Table :=
  match sorted with
  | [] => [row]
  | r :: rest =>
      if String.ltb (createdAt row) (createdAt r)
      then r :: insert_desc row rest
      else row :: sorted
  end.

Definition listSubscriptions (db : Table) : list Subscription :=
  fold_right insert_desc [] db.

Definition deleteSubscription (db : Table) (i : Z) : Table :=
  List.filter (fun row => negb (id row =? i)) db.

(** The [SET] clause of the cursor update, applied to one row. *)
Definition set_cursor (observationId lastNotifiedAt : string)
    (row : Subscription) : Subscription :=
  mkSubscription (id row) (phone row) (speciesCode row)
    (speciesCommonName row) (locationLabel row) (latitude row)
    (longitude row) (radiusMiles row) (lookBackDays row) (createdAt row)
    (Some observationId) (Some lastNotifiedAt).

(** [UPDATE subscriptions SET ... WHERE id = @id]. *)
Definition update_where_id (i : Z) (observationId lastNotifiedAt : string)
    (db : Table) : Table :=
  List.map (fun row => if id row =? i
                       then set_cursor observationId lastNotifiedAt row
                       else row) db.

Section Clock.

(** [Date.prototype.toISOString] on the instant read by [new Date()]. *)
Variable toISOString : Z -> string.

(** [updateSubscriptionLastObservation(id, observationId)].  [fault] is
    the error [statement.run] throws when the storage engine fails (the
    statement then changes nothing); [now] is the clock reading. *)
Definition updateSubscriptionLastObservation (fault : option Error) (now : Z)
    (i : Z) (observationId : string) (db : Table) : Completion Table :=
  match fault with
  | Some e => Throw e
  | None => Return (update_where_id i observationId (toISOString now) db)
  end.

End Clock.

(** *** The database file and the insert *)

(** The rows of [subscriptions] together with the table's entry of
    [sqlite_sequence]: the largest rowid the table has ever held, 0 before
    the first insert. *)
Record Database := mkDatabase { rows : Table; sequence : Z }.

(** The argument of [createSubscription]: the columns the caller gives. *)
Module Input.

Record t := mk {
  phone : string;
  speciesCode : string;
  speciesCommonName : string;
  locationLabel : string;
  latitude : Q;
  longitude : Q;
  radiusMiles : Z;
  lookBackDays : Z
}.

End Input.

Definition largest_rowid (db : Table) : Z :=
  fold_right (fun row largest => Z.max (id row) largest) 0 db.

(** The largest rowid of SQLite, 2^63 - 1. *)
Definition rowid_limit : Z := 9223372036854775807.

(** [INTEGER PRIMARY KEY AUTOINCREMENT]: the new rowid is one more than
    the largest rowid the table has ever held; once the largest possible
    rowid has been used the insert fails. *)
Definition next_rowid (db : Database) : option Z :=
  let largest := Z.max (sequence db) (largest_rowid (rows db)) in
  if largest <? rowid_limit then Some (largest + 1) else None.

(** Up to 2^53 every integer is a JS number. *)
Definition safe_limit : Z := 9007199254740992.

(** The JS number an integer becomes: the nearest double, ties to even.
    [result.lastInsertRowid] is such a number. *)
Definition js_number (n : Z) : Z :=
  if Z.abs n <=? safe_limit then n
  else
    let scale := 2 ^ (Z.log2 (Z.abs n) - 52) in
    let q := Z.abs n / scale in
    let r := Z.abs n mod scale in
    let rounded :=
      if 2 * r <? scale then q
      else if scale <? 2 * r then q + 1
      else if Z.even q then q else q + 1 in
    Z.sgn n * (rounded * scale).

(** [DELETE FROM subscriptions WHERE id = ?] on the database file. *)
Definition delete_row (db : Database) (i : Z) : Database :=
  mkDatabase (deleteSubscription (rows db) i) (sequence db).

Section Insert.

Variable toISOString : Z -> string.

(** [createSubscription(input)]: the insert, then the row read back by
    [getSubscriptionById(result.lastInsertRowid)], where the rowid has
    become a JS number.  [now] is the clock reading of [new Date()]. *)
Definition createSubscription (now : Z) (input : Input.t) (db : Database)
    : Completion (option Subscription * Database) :=
  match next_rowid db with
  | None => Throw (mkError "database or disk is full")
  | Some lastInsertRowid =>
      let row :=
        mkSubscription lastInsertRowid (Input.phone input)
          (Input.speciesCode input) (Input.speciesCommonName input)
          (Input.locationLabel input) (Input.latitude input)
          (Input.longitude input) (Input.radiusMiles input)
          (Input.lookBackDays input) (toISOString now) None None in
      let db' := mkDatabase (rows db ++ [row])%list lastInsertRowid in
      Return (getSubscriptionById (rows db') (js_number lastInsertRowid), db')
  end.

End Insert.

End Db.

(** ** The notifier ([server/src/notifier.js]) *)

Module Notifier.

(** The resolved arguments of [startNotifier]; [pollIntervalCron]
    defaults to every 15 minutes and [minimumNotificationMinutes] to 30.
    The latter comes from [Number.parseInt]: it is an integer, or [NaN],
    which fails the test [> 0] of line 79 as a non-positive integer does. *)
Record Config := mkConfig {
  ebirdApiKey : string;
  twilioAccountSid : string;
  twilioAuthToken : string;
  twilioFromNumber : string;
  pollIntervalCron : string;
  minimumNotificationMinutes : Z
}.

(** The argument of [twilioClient.messages.create]. *)
Record Sms := mkSms { body : string; from : string; to : string }.

(** A line written with [console.warn] or [console.error]. *)
Record LogLine := mkLogLine { line : string; cause : option Error }.

(** The collaborators of one cycle: the network behind [fetch], the SMS
    gateway (the error [messages.create] rejects with, if any), the
    storage engine (the error [statement.run] throws for a cursor write
    of a given subscription, if any) and the clock read by that write. *)
Record Env := mkEnv {
  network : Ebird.Network;
  messages_create : Sms -> option Error;
  run_fault : Z -> option Error;
  clock : Z -> Z
}.

(** What a cycle can change: the table, the requests handed to the SMS
    gateway (oldest first) and the console. *)
Record World := mkWorld {
  table : Db.Table;
  sms : list Sms;
  console : list LogLine
}.

(** The libraries [startNotifier] calls while it sets up: the error the
    constructor [twilio(accountSid, authToken)] throws, if any, and the
    error [cron.schedule(expression, ...)] throws for the expression, if
    any. *)
Record Host := mkHost {
  twilio : string -> string -> option Error;
  cron_schedule : string -> option Error
}.

(** Computations over the world that may throw; the world reached
    before a throw is kept. *)
Definition M (A : Type) : Type := World -> Completion A * World.

Definition ret {A} (a : A) : M A := fun w => (Return a, w).

Definition throw {A} (e : Error) : M A := fun w => (Throw e, w).

Definition bind {A B} (m : M A) (k : A -> M B) : M B :=
  fun w =>
    match m w with
    | (Return a, w') => k a w'
    | (Throw e, w') => (Throw e, w')
    end.

Definition try_catch {A} (m : M A) (handler : Error -> M A) : M A :=
  fun w =>
    match m w with
    | (Return a, w') => (Return a, w')
    | (Throw e, w') => handler e w'
    end.

(** [await] of a call that does not touch the world. *)
Definition await {A} (c : Completion A) : M A := fun w => (c, w).

Notation "'do' x <- m ; k" := (bind m (fun x => k))
  (at level 10, x name, m at level 100, k at level 200).
Notation "m ;; k" := (bind m (fun _ => k))
  (at level 100, k at level 200, right associativity).

Definition console_log (text : string) (cause : option Error) : M unit :=
  fun w => (Return tt, mkWorld (table w) (sms w) (console w ++ [mkLogLine text cause])).

(** The terminal points of one iteration of the loop of [execute]: the
    four [continue] statements and the fall-through after the cursor
    write. *)
Inductive Outcome :=
| NoObservations
| LatestAlreadyNotified
| NoNewSightings
| Throttled
| Committed (primary : Ebird.Observation).

(** [a === s] for a nullable column [a] and a string [s]. *)
Definition strict_eq (a : option string) (s : string) : bool :=
  match a with
  | Some a' => String.eqb a' s
  | None => false
  end.

Section Engine.

(** [Date.parse] ([None] for [NaN]) and [toISOString] of the host. *)
Variable Date_parse : string -> option Z.
Variable toISOString : Z -> string.

(** [Date.parse(v)] for a nullable column; [Date.parse(null)] is [NaN]. *)
Definition parse_nullable (v : option string) : option Z :=
  match v with
  | Some s => Date_parse s
  | None => None
  end.

(** The callback of [observations.filter] (lines 62-73). *)
Definition isNewSighting (subscription : Db.Subscription)
    (observation : Ebird.Observation) : bool :=
  if truthy (Db.lastObservationId subscription)
     && strict_eq (Db.lastObservationId subscription) (Ebird.subId observation)
  then false
  else if truthy (Db.lastNotifiedAt subscription) then
    match Date_parse (Ebird.obsDt observation),
          parse_nullable (Db.lastNotifiedAt subscription) with
    | Some obsTime, Some lastNotified => negb (obsTime <=? lastNotified)
    | _, _ => true
    end
  else true.

Definition newSightings (subscription : Db.Subscription)
    (observations : list Ebird.Observation) : list Ebird.Observation :=
  List.filter (isNewSighting subscription) observations.

(** Lines 49-77: either the iteration ends ([continue]), or there is a
    non-empty array of new sightings. *)
Inductive Dedup :=
| Continue (o : Outcome)
| NewSightings (primary : Ebird.Observation) (others : list Ebird.Observation).

Definition dedup (subscription : Db.Subscription) (feed : Ebird.Feed) : Dedup :=
  match feed with
  | Ebird.NonArray => Continue NoObservations
  | Ebird.Observations [] => Continue NoObservations
  | Ebird.Observations ((latest :: _) as observations) =>
      if truthy (Db.lastObservationId subscription)
         && strict_eq (Db.lastObservationId subscription) (Ebird.subId latest)
      then Continue LatestAlreadyNotified
      else
        match newSightings subscription observations with
        | [] => Continue NoNewSightings
        | primary :: others => NewSightings primary others
        end
  end.

(** The sightings that leave lines 49-77 as candidates for an alert. *)
Definition candidates (subscription : Db.Subscription)
    (observations : list Ebird.Observation) : list Ebird.Observation :=
  match dedup subscription (Ebird.Observations observations) with
  | Continue _ => []
  | NewSightings primary others => primary :: others
  end.

(** [(earliestObservation - lastNotified) / (1000 * 60)].  Both
    instants are integers, so the quotient is the exact rational. *)
Definition minutesSinceLast (earliestObservation lastNotified : Z) : Q :=
  (inject_Z (earliestObservation - lastNotified) / inject_Z (1000 * 60))%Q.

(** Lines 79-88: [true] when the iteration ends at the [continue] of
    line 85.  [first] is [newSightings[0]]. *)
Definition throttled (minimumNotificationMinutes : Z)
    (subscription : Db.Subscription) (first : Ebird.Observation) : bool :=
  if truthy (Db.lastNotifiedAt subscription) && (0 <? minimumNotificationMinutes)
  then
    match parse_nullable (Db.lastNotifiedAt subscription) with
    | Some lastNotified =>
        match Date_parse (Ebird.obsDt first) with
        | Some earliestObservation =>
            match (minutesSinceLast earliestObservation lastNotified
                   ?= inject_Z minimumNotificationMinutes)%Q with
            | Lt => true
            | _ => false
            end
        | None => false
        end
    | None => false
    end
  else false.

(** [twilioClient]: created when both the account SID and the token
    are given. *)
Definition twilioClient (cfg : Config) : bool :=
  truthy_string (twilioAccountSid cfg) && truthy_string (twilioAuthToken cfg).

(** Lines 94-102. *)
Definition alertMessage (subscription : Db.Subscription)
    (primary : Ebird.Observation) (extras : Z) : string :=
  join " " (filter_Boolean
    [ ("BirdTrail alert: " ++ Db.speciesCommonName subscription)%string;
      ("Latest at " ++ Ebird.locName primary ++ " ("
         ++ Ebird.obsDt primary ++ ").")%string;
      if 0 <? extras
      then (toString extras ++ " more sightings nearby in the last check.")%string
      else "";
      ("Search radius " ++ toString (Db.radiusMiles subscription)
         ++ "mi around " ++ Db.locationLabel subscription ++ ".")%string;
      "Reply STOP to unsubscribe." ]).

Definition alert (cfg : Config) (subscription : Db.Subscription)
    (primary : Ebird.Observation) (others : list Ebird.Observation) : Sms :=
  mkSms (alertMessage subscription primary (Z.of_nat (List.length others)))
        (twilioFromNumber cfg) (Db.phone subscription).

(** [await twilioClient.messages.create(...)]. *)
Definition send (env : Env) (message : Sms) : M unit :=
  fun w =>
    let w' := mkWorld (table w) (sms w ++ [message]) (console w) in
    match messages_create env message with
    | Some e => (Throw e, w')
    | None => (Return tt, w')
    end.

(** Lines 90-109: the alert goes out only when the client exists and a
    sender number is configured. *)
Definition dispatch (cfg : Config) (env : Env) (subscription : Db.Subscription)
    (primary : Ebird.Observation) (others : list Ebird.Observation) : M unit :=
  if twilioClient cfg && truthy_string (twilioFromNumber cfg)
  then send env (alert cfg subscription primary others)
  else ret tt.

(** Line 111. *)
Definition commit (env : Env) (i : Z) (observationId : string) : M unit :=
  fun w =>
    match Db.updateSubscriptionLastObservation toISOString
            (run_fault env i) (clock env i) i observationId (table w) with
    | Return db' => (Return tt, mkWorld db' (sms w) (console w))
    | Throw e => (Throw e, w)
    end.

(** Lines 40-47: the query for one subscription. *)
Definition fetch_for (cfg : Config) (env : Env)
    (subscription : Db.Subscription) : Completion Ebird.Feed :=
  Ebird.fetchRecentObservations (network env)
    (Db.speciesCode subscription) (Db.latitude subscription)
    (Db.longitude subscription) (Db.radiusMiles subscription)
    (Db.lookBackDays subscription) (ebirdApiKey cfg).

(** The table after the cursor write of line 111. *)
Definition advanced (env : Env) (subscription : Db.Subscription)
    (primary : Ebird.Observation) (db : Db.Table) : Db.Table :=
  Db.update_where_id (Db.id subscription) (Ebird.subId primary)
    (toISOString (clock env (Db.id subscription))) db.

(** Lines 90-111: dispatch, then the cursor write. *)
Definition notify (cfg : Config) (env : Env) (subscription : Db.Subscription)
    (primary : Ebird.Observation) (others : list Ebird.Observation) : M Outcome :=
  dispatch cfg env subscription primary others ;;
  commit env (Db.id subscription) (Ebird.subId primary) ;;
  ret (Committed primary).

(** The body of the [try] block (lines 40-111) for one subscription. *)
Definition processSubscription (cfg : Config) (env : Env)
    (subscription : Db.Subscription) : M Outcome :=
  do observations <- await (fetch_for cfg env subscription);
  match dedup subscription observations with
  | Continue o => ret o
  | NewSightings primary others =>
      if throttled (minimumNotificationMinutes cfg) subscription primary
      then ret Throttled
      else
        notify cfg env subscription primary others
  end.

(** The cursor write a subscription's own pipeline asks for: the write of
    line 111 when the pipeline, run from [w], ends as [Committed], and
    nothing otherwise. *)
Definition own_write (cfg : Config) (env : Env) (w : World)
    (db : Db.Table) (subscription : Db.Subscription) : Db.Table :=
  match fst (processSubscription cfg env subscription w) with
  | Return (Committed primary) => advanced env subscription primary db
  | _ => db
  end.

(** One iteration of the loop: the [try] block and its [catch]. *)
Definition iteration (cfg : Config) (env : Env)
    (subscription : Db.Subscription) : M unit :=
  try_catch (processSubscription cfg env subscription ;; ret tt)
    (fun error =>
       console_log ("[notifier] Failed to process subscription "
                      ++ toString (Db.id subscription) ++ ":")%string
                   (Some error)).

(** [for (const subscription of subscriptions) { ... }]. *)
Fixpoint for_of (cfg : Config) (env : Env)
    (subscriptions : list Db.Subscription) : M unit :=
  match subscriptions with
  | [] => ret tt
  | subscription :: rest =>
      iteration cfg env subscription ;; for_of cfg env rest
  end.

Definition execute (cfg : Config) (env : Env) : M unit :=
  fun w =>
    let subscriptions := Db.listSubscriptions (table w) in
    match subscriptions with
    | [] => (Return tt, w)
    | _ => for_of cfg env subscriptions w
    end.

(** The callback handed to [cron.schedule]. *)
Definition tick (cfg : Config) (env : Env) : M unit :=
  try_catch (execute cfg env)
    (fun error => console_log "[notifier] Unexpected error:" (Some error)).

(** A call of a library that either throws or returns. *)
Definition call (outcome : option Error) : M unit :=
  match outcome with
  | Some e => throw e
  | None => ret tt
  end.

(** [startNotifier]: the check of the key, the warning, the construction
    of the Twilio client (lines 27-30), [cron.schedule] (lines 121-125)
    and the run on startup (lines 128-130). *)
Definition startNotifier (host : Host) (cfg : Config) (env : Env) : M unit :=
  if negb (truthy_string (ebirdApiKey cfg)) then
    throw (mkError "EBIRD_API_KEY is required to start the notifier")
  else
    (if negb (truthy_string (twilioAccountSid cfg))
        || negb (truthy_string (twilioAuthToken cfg))
        || negb (truthy_string (twilioFromNumber cfg))
     then console_log "[notifier] Twilio credentials missing; SMS sending is disabled." None
     else ret tt) ;;
    (if twilioClient cfg
     then call (twilio host (twilioAccountSid cfg) (twilioAuthToken cfg))
     else ret tt) ;;
    call (cron_schedule host (pollIntervalCron cfg)) ;;
    try_catch (execute cfg env)
      (fun error => console_log "[notifier] Startup execution failed:" (Some error)).

End Engine.

End Notifier.

(** ** The management API ([server/src/index.js]) *)

Module Server.

(** A parsed request body.  [JInfinity] is what [JSON.parse] gives for a
    literal beyond the range of a double. *)
#[local] Unset Elimination Schemes.
Inductive Json :=
| JNull
| JBool (b : bool)
| JNumber (q : Q)
| JInfinity (negative : bool)
| JString (s : string)
| JArray (items : list Json)
| JObject (fields : list (string * Json)).
#[local] Set Elimination Schemes.

(** [object[key]], [None] for [undefined]. *)
Fixpoint property (fields : list (string * Json)) (key : string) : option Json :=
  match fields with
  | [] => None
  | (k, v) :: rest => if String.eqb k key then Some v else property rest key
  end.

Definition code (c : ascii) : N := N_of_ascii c.

Definition is_digit (c : ascii) : bool := ((48 <=? code c) && (code c <=? 57))%N.

(** [\s] on code units below 256: tab, line feed, vertical tab, form
    feed, carriage return, space and no-break space. *)
Definition is_space (c : ascii) : bool :=
  (((9 <=? code c) && (code c <=? 13)) || (code c =? 32) || (code c =? 160))%N.

(** The class [[0-9\s\-().]]. *)
Definition phone_class (c : ascii) : bool :=
  is_digit c || is_space c || Ascii.eqb c "-" || Ascii.eqb c "("
  || Ascii.eqb c ")" || Ascii.eqb c ".".

(** [/^\+?[0-9\s\-().]+$/.test(s)]. *)
Definition phone_pattern (s : string) : bool :=
  let rest := match s with
              | String "+" rest => rest
              | _ => s
              end in
  negb (rest =? "")%string && forallb phone_class (list_ascii_of_string rest).

(** [z.string().min(5).max(20).regex(...)]. *)
Definition phone_field (v : option Json) : option string :=
  match v with
  | Some (JString s) =>
      if (5 <=? String.length s)%nat && (String.length s <=? 20)%nat
         && phone_pattern s
      then Some s else None
  | _ => None
  end.

(** [z.string().min(2)]. *)
Definition text_field (v : option Json) : option string :=
  match v with
  | Some (JString s) => if (2 <=? String.length s)%nat then Some s else None
  | _ => None
  end.

(** [z.number().min(lo).max(hi)]. *)
Definition number_field (lo hi : Q) (v : option Json) : option Q :=
  match v with
  | Some (JNumber q) => if Qle_bool lo q && Qle_bool q hi then Some q else None
  | _ => None
  end.

(** [z.number().int().positive().max(hi)]. *)
Definition count_field (hi : Z) (v : option Json) : option Z :=
  match v with
  | Some (JNumber q) =>
      let value := Qred q in
      if (Qden value =? 1)%positive && (0 <? Qnum value) && (Qnum value <=? hi)
      then Some (Qnum value) else None
  | _ => None
  end.

(** [.default(d)]: the default for a missing key. *)
Definition with_default {A} (d : A) (field : option Json -> option A)
    (v : option Json) : option A :=
  match v with
  | None => Some d
  | Some _ => field v
  end.

(** [subscriptionSchema.safeParse(body)]: the parsed data, or [None] when
    [success] is false. *)
Definition safeParse (body : Json) : option Db.Input.t :=
  match body with
  | JObject fields =>
      phone ← phone_field (property fields "phone");
      speciesCode ← text_field (property fields "speciesCode");
      speciesCommonName ← text_field (property fields "speciesCommonName");
      locationLabel ← text_field (property fields "locationLabel");
      latitude ← number_field (-90) 90 (property fields "latitude");
      longitude ← number_field (-180) 180 (property fields "longitude");
      radiusMiles ← count_field 200 (property fields "radiusMiles");
      lookBackDays ← with_default 3 (count_field 30) (property fields "lookBackDays");
      Some (Db.Input.mk phone speciesCode speciesCommonName locationLabel
              latitude longitude radiusMiles lookBackDays)
  | _ => None
  end.

(** What a handler answers: the status and the JSON body (the details of
    a validation error are zod's and left out). *)
Inductive Body :=
| NoContent
| Failure (error : string)
| Created (subscription : option Db.Subscription)
| Listing (subscriptions : list Db.Subscription).

Record Reply := mkReply { status : Z; body : Body }.

Section Routes.

Variable toISOString : Z -> string.

(** [Number.parseInt(s, 10)] of the host, [None] for [NaN]. *)
Variable parseInt : string -> option Z.

(** [app.get('/api/subscriptions', ...)]. *)
Definition get_subscriptions (db : Db.Database) : Reply :=
  mkReply 200 (Listing (Db.listSubscriptions (Db.rows db))).

(** [app.post('/api/subscriptions', ...)]. *)
Definition post_subscriptions (now : Z) (body : Json) (db : Db.Database)
    : Completion (Reply * Db.Database) :=
  match safeParse body with
  | None => Return (mkReply 400 (Failure "Invalid subscription payload"), db)
  | Some data =>
      match Db.createSubscription toISOString now data db with
      | Throw e => Throw e
      | Return (subscription, db') => Return (mkReply 201 (Created subscription), db')
      end
  end.

(** [app.delete('/api/subscriptions/:id', ...)]. *)
Definition delete_subscription (param : string) (db : Db.Database)
    : Reply * Db.Database :=
  match parseInt param with
  | None => (mkReply 400 (Failure "Invalid id parameter"), db)
  | Some i => (mkReply 204 NoContent, Db.delete_row db i)
  end.

End Routes.

End Server.

(** ** The dedup filter and the throttle gate as the specification words them

    These definitions follow the sentences of sections 4.3 and 4.4 of the
    specification; they are compared below with [Notifier.candidates] and
    [Notifier.throttled], which follow the code. *)

Module Spec.

Section Worded.

Variable Date_parse : string -> option Z.

(** "whose submission id equals [cursor.lastObservationId]" *)
Definition same_submission (subscription : Db.Subscription)
    (observation : Ebird.Observation) : Prop :=
  Db.lastObservationId subscription = Some (Ebird.subId observation).

(** "if [cursor.lastNotifiedAt] is set, ... whose observed-at time is less
    than or equal to [cursor.lastNotifiedAt]" *)
Definition not_newer (subscription : Db.Subscription)
    (observation : Ebird.Observation) : Prop :=
  match Db.lastNotifiedAt subscription with
  | Some lastNotifiedAt =>
      match Date_parse (Ebird.obsDt observation), Date_parse lastNotifiedAt with
      | Some observed, Some notified => observed <= notified
      | _, _ => False
      end
  | None => False
  end.

#[local] Instance same_submission_dec subscription observation :
  Decision (same_submission subscription observation).
Proof. unfold same_submission. apply _. Defined.

#[local] Instance not_newer_dec subscription observation :
  Decision (not_newer subscription observation).
Proof.
  unfold not_newer.
  destruct (Db.lastNotifiedAt subscription); [|apply _].
  destruct (Date_parse (Ebird.obsDt observation)); [|apply _].
  destruct (Date_parse s); apply _.
Defined.

(** [newSightings(observations, cursor)] of section 4.3. *)
Definition newSightings (subscription : Db.Subscription)
    (observations : list Ebird.Observation) : list Ebird.Observation :=
  filter (fun o => ~ same_submission subscription o /\ ~ not_newer subscription o)
         observations.

(** The earliest of a non-empty list of instants. *)
Definition earliest (first : Z) (others : list Z) : Z :=
  fold_right Z.min first others.

(** [shouldNotify(newSightings, cursor, minIntervalMinutes)] of section
    4.4 on a batch of new sightings; the gap in minutes is compared as an
    exact rational.  The sentence gives no answer ([None]) for an empty
    batch or an instant that does not parse. *)
Definition shouldNotify (newSightings : list Ebird.Observation)
    (subscription : Db.Subscription) (minIntervalMinutes : Z) : option bool :=
  match Db.lastNotifiedAt subscription with
  | None => Some true
  | Some lastNotifiedAt =>
      match Date_parse lastNotifiedAt,
            mapM (fun o => Date_parse (Ebird.obsDt o)) newSightings with
      | Some notified, Some (first :: others) =>
          Some (minIntervalMinutes * 60000 <=? earliest first others - notified)
      | _, _ => None
      end
  end.

(** The same two conditions as the code tests them: a column counts as
    set when it is neither [null] nor the empty string. *)
Definition already_notified (subscription : Db.Subscription)
    (observation : Ebird.Observation) : Prop :=
  truthy (Db.lastObservationId subscription) = true
  /\ same_submission subscription observation.

Definition stale (subscription : Db.Subscription)
    (observation : Ebird.Observation) : Prop :=
  truthy (Db.lastNotifiedAt subscription) = true
  /\ not_newer subscription observation.

(** The first observation of the snapshot is the one last notified. *)
Definition latest_already_notified (subscription : Db.Subscription)
    (observations : list Ebird.Observation) : Prop :=
  match observations with
  | latest :: _ => already_notified subscription latest
  | [] => False
  end.

#[local] Instance already_notified_dec subscription observation :
  Decision (already_notified subscription observation).
Proof. unfold already_notified. apply _. Defined.

#[local] Instance stale_dec subscription observation :
  Decision (stale subscription observation).
Proof. unfold stale. apply _. Defined.

#[local] Instance latest_already_notified_dec subscription observations :
  Decision (latest_already_notified subscription observations).
Proof. destruct observations; simpl; apply _. Defined.

(** An instant that parses and is not later than [limit]. *)
Definition observed_by (limit : Z) (observation : Ebird.Observation) : Prop :=
  match Date_parse (Ebird.obsDt observation) with
  | Some observed => observed <= limit
  | None => False
  end.

End Worded.

#[global] Existing Instances same_submission_dec not_newer_dec
  already_notified_dec stale_dec latest_already_notified_dec.

End Spec.

(** ** Sample data *)

Module Sample.

Definition sighting (subId obsDt : string) : Ebird.Observation :=
  Ebird.mkObservation "norcar" "Northern Cardinal" "Cardinalis cardinalis"
    "Central Park" (4078 # 100) (-7397 # 100) obsDt None None true false false subId.

Definition subscription (i : Z) (lastObservationId lastNotifiedAt : option string)
    : Db.Subscription :=
  Db.mkSubscription i "+15550100" "norcar" "Northern Cardinal" "New York, NY"
    (4071 # 100) (-7400 # 100) 25 3 "2023-12-31T08:00:00.000Z"
    lastObservationId lastNotifiedAt.

(** A configuration with Twilio credentials and a one-hour throttle. *)
Definition config : Notifier.Config :=
  Notifier.mkConfig "ebird-key" "AC00" "token" "+15550199" "*/15 * * * *" 60.

(** The same with the throttle switched off. *)
Definition config_unthrottled : Notifier.Config :=
  Notifier.mkConfig "ebird-key" "AC00" "token" "+15550199" "*/15 * * * *" 0.

(** The same without Twilio credentials. *)
Definition config_no_sms : Notifier.Config :=
  Notifier.mkConfig "ebird-key" "" "" "" "*/15 * * * *" 60.

(** A network that answers every query with the given response. *)
Definition answering (r : Ebird.Response) : Ebird.Network :=
  fun _ => Ebird.Resolved r.

Definition feed_of (observations : list Ebird.Observation) : Ebird.Network :=
  answering (Ebird.mkResponse 200 "OK" "" (Ebird.Array observations)).

Definition not_found : Ebird.Response :=
  Ebird.mkResponse 404 "Not Found" "" Ebird.NotArray.

(** Collaborators that all work: the gateway accepts, the store writes. *)
Definition env_ok (net : Ebird.Network) (now : Z) : Notifier.Env :=
  Notifier.mkEnv net (fun _ => None) (fun _ => None) (fun _ => now).

Definition empty_world (db : Db.Table) : Notifier.World :=
  Notifier.mkWorld db [] [].

(** Instants of 1 January 2024 (UTC), in milliseconds. *)
Definition at_10_05 : Z := 1704103500000.
Definition at_12_05 : Z := 1704110700000.
Definition at_12_20 : Z := 1704111600000.

(** A snapshot whose first observation is the one last notified. *)
Definition cursor_on_S100 : Db.Subscription :=
  subscription 1 (Some "S100") (Some "2024-01-01T10:05:00.000Z").

Definition snapshot_S100_first : list Ebird.Observation :=
  [ sighting "S100" "2024-01-01T12:00:00.000Z";
    sighting "S101" "2024-01-01T11:00:00.000Z" ].

(** Two new sightings, the more recent one first, after an alert at 10:00. *)
Definition notified_at_10 : Db.Subscription :=
  subscription 2 (Some "S100") (Some "2024-01-01T10:00:00.000Z").

Definition batch_61_then_30 : list Ebird.Observation :=
  [ sighting "S102" "2024-01-01T11:01:00.000Z";
    sighting "S101" "2024-01-01T10:30:00.000Z" ].

(** A snapshot with an observation dated after the server's clock. *)
Definition notified_at_09 : Db.Subscription :=
  subscription 7 (Some "S099") (Some "2024-01-01T09:00:00.000Z").

Definition snapshot_ahead_of_clock : list Ebird.Observation :=
  [ sighting "S098" "2024-01-01T08:00:00.000Z";
    sighting "S100" "2024-01-01T12:00:00.000Z";
    sighting "S101" "2024-01-01T13:30:00.000Z" ].

Definition snapshot_past : list Ebird.Observation :=
  [ sighting "S098" "2024-01-01T08:00:00.000Z";
    sighting "S100" "2024-01-01T12:00:00.000Z" ].

Definition committed_S100 : Db.Subscription :=
  subscription 7 (Some "S100") (Some "2024-01-01T12:05:00.000Z").

(** The first cycle of a new subscription (section 8 of the specification). *)
Definition fresh : Db.Subscription := subscription 3 None None.

Definition snapshot_single : list Ebird.Observation :=
  [ sighting "S100" "2024-01-01T10:00:00.000Z" ].

(** A gateway that rejects every request. *)
Definition env_gateway_down (net : Ebird.Network) (now : Z) : Notifier.Env :=
  Notifier.mkEnv net (fun _ => Some (mkError "Twilio: service unavailable"))
    (fun _ => None) (fun _ => now).

Definition server_error : Ebird.Response :=
  Ebird.mkResponse 500 "Internal Server Error" "try later" Ebird.NotArray.

(** Two subscriptions for different species; the feed fails for the first
    species and answers for the second. *)
Definition failing : Db.Subscription :=
  Db.mkSubscription 4 "+15550101" "baleag" "Bald Eagle" "Albany, NY"
    (4265 # 100) (-7375 # 100) 50 3 "2023-12-31T09:00:00.000Z" None None.

Definition healthy : Db.Subscription :=
  Db.mkSubscription 5 "+15550102" "norcar" "Northern Cardinal" "Albany, NY"
    (4265 # 100) (-7375 # 100) 50 3 "2023-12-31T08:00:00.000Z" None None.

Definition eagle_feed_down : Ebird.Network :=
  fun request =>
    if String.eqb (Ebird.path_speciesCode request) "baleag"
    then Ebird.Resolved server_error
    else Ebird.Resolved (Ebird.mkResponse 200 "OK" "" (Ebird.Array snapshot_single)).

(** A cursor whose notification time is not a date. *)
Definition notified_garbled : Db.Subscription :=
  subscription 6 (Some "S100") (Some "a while ago").

Definition snapshot_S101 : list Ebird.Observation :=
  [ sighting "S101" "2024-01-01T10:30:00.000Z" ].

End Sample.

(** ** Invariants and orders used below *)

Module Inv.

(** [a] was not created before [b], by the text order SQLite sorts with. *)
Definition not_older (a b : Db.Subscription) : Prop :=
  String.ltb (Db.createdAt a) (Db.createdAt b) = false.

(** The primary key: every rowid is positive, has been recorded in
    [sqlite_sequence], and belongs to one row only. *)
Definition well_formed (db : Db.Database) : Prop :=
  Forall (fun row => 1 <= Db.id row <= Db.sequence db) (Db.rows db)
  /\ NoDup (List.map Db.id (Db.rows db)).

(** The bounds of [subscriptionSchema] on the columns of a row. *)
Definition in_bounds (phone speciesCode speciesCommonName locationLabel : string)
    (latitude longitude : Q) (radiusMiles lookBackDays : Z) : Prop :=
  (5 <= String.length phone <= 20)%nat
  /\ Server.phone_pattern phone = true
  /\ (2 <= String.length speciesCode)%nat
  /\ (2 <= String.length speciesCommonName)%nat
  /\ (2 <= String.length locationLabel)%nat
  /\ (-90 <= latitude <= 90)%Q
  /\ (-180 <= longitude <= 180)%Q
  /\ 1 <= radiusMiles <= 200
  /\ 1 <= lookBackDays <= 30.

Definition valid_input (input : Db.Input.t) : Prop :=
  in_bounds (Db.Input.phone input) (Db.Input.speciesCode input)
    (Db.Input.speciesCommonName input) (Db.Input.locationLabel input)
    (Db.Input.latitude input) (Db.Input.longitude input)
    (Db.Input.radiusMiles input) (Db.Input.lookBackDays input).

Definition valid_row (row : Db.Subscription) : Prop :=
  in_bounds (Db.phone row) (Db.speciesCode row) (Db.speciesCommonName row)
    (Db.locationLabel row) (Db.latitude row) (Db.longitude row)
    (Db.radiusMiles row) (Db.lookBackDays row).

(** Two rows that differ at most in their cursor. *)
Definition same_subscription (row row' : Db.Subscription) : Prop :=
  Db.id row' = Db.id row
  /\ Db.phone row' = Db.phone row
  /\ Db.speciesCode row' = Db.speciesCode row
  /\ Db.speciesCommonName row' = Db.speciesCommonName row
  /\ Db.locationLabel row' = Db.locationLabel row
  /\ Db.latitude row' = Db.latitude row
  /\ Db.longitude row' = Db.longitude row
  /\ Db.radiusMiles row' = Db.radiusMiles row
  /\ Db.lookBackDays row' = Db.lookBackDays row
  /\ Db.createdAt row' = Db.createdAt row.

(** The console lines a cycle owes: one for each subscription whose
    pipeline, run from [w], throws. *)
Definition failure_lines (Date_parse : string -> option Z) (toISOString : Z -> string)
    (cfg : Notifier.Config) (env : Notifier.Env) (w : Notifier.World)
    (subscriptions : list Db.Subscription) : list Notifier.LogLine :=
  flat_map
    (fun subscription =>
       match fst (Notifier.processSubscription Date_parse toISOString cfg env
                    subscription w) with
       | Throw e =>
           [Notifier.mkLogLine
              ("[notifier] Failed to process subscription "
                 ++ toString (Db.id subscription) ++ ":")%string (Some e)]
       | Return _ => []
       end)
    subscriptions.

(** [a] is listed before [b] by distance. *)
Definition closer (a b : Ebird.Observation) : Prop :=
  match Ebird.distance a, Ebird.distance b with
  | Some da, Some db => (da <= db)%Q
  | _, _ => False
  end.

(** [a] is listed before [b] by recency, for the instants [getTime] gives. *)
Definition more_recent (getTime : string -> option Z)
    (a b : Ebird.Observation) : Prop :=
  match getTime (Ebird.obsDt a), getTime (Ebird.obsDt b) with
  | Some ta, Some tb => tb <= ta
  | _, _ => False
  end.

End Inv.

(** ** More sample data *)

Module Fixture.

(** A database holding two subscriptions, ids 3 and 5. *)
Definition database : Db.Database :=
  Db.mkDatabase [Sample.fresh; Sample.healthy] 5.

Definition input : Db.Input.t :=
  Db.Input.mk "+1 (555) 010-0103" "baleag" "Bald Eagle" "Albany, NY"
    (4265 # 100) (-7375 # 100) 50 3.

(** The row [input] becomes when inserted at 10:05 with rowid 6. *)
Definition created_row : Db.Subscription :=
  Db.mkSubscription 6 "+1 (555) 010-0103" "baleag" "Bald Eagle" "Albany, NY"
    (4265 # 100) (-7375 # 100) 50 3 "2024-01-01T10:05:00.000Z" None None.

(** A request body without the key [lookBackDays]. *)
Definition fields : list (string * Server.Json) :=
  [ ("phone", Server.JString "+1 (555) 010-0103");
    ("speciesCode", Server.JString "baleag");
    ("speciesCommonName", Server.JString "Bald Eagle");
    ("locationLabel", Server.JString "Albany, NY");
    ("latitude", Server.JNumber (4265 # 100));
    ("longitude", Server.JNumber (-7375 # 100));
    ("radiusMiles", Server.JNumber (100 # 2)) ].

(** [Number.parseInt(s, 10)] on strings whose digits stay below 2^53:
    leading white space, an optional sign, then the longest run of digits. *)
Fixpoint skip_space (cs : list ascii) : list ascii :=
  match cs with
  | c :: rest => if Server.is_space c then skip_space rest else cs
  | [] => []
  end.

Fixpoint digits (value : option Z) (cs : list ascii) : option Z :=
  match cs with
  | c :: rest =>
      match Iso.digit c with
      | Some d => digits (Some (10 * default 0 value + d)) rest
      | None => value
      end
  | [] => value
  end.

Definition parseInt (s : string) : option Z :=
  match skip_space (list_ascii_of_string s) with
  | c :: rest =>
      if Ascii.eqb c "-" then Z.opp <$> digits None rest
      else if Ascii.eqb c "+" then digits None rest
      else digits None (c :: rest)
  | [] => None
  end.

(** Collaborators with a storage engine that refuses the cursor write. *)
Definition env_store_down (net : Ebird.Network) (now : Z) : Notifier.Env :=
  Notifier.mkEnv net (fun _ => None)
    (fun _ => Some (mkError "SQLITE_BUSY: database is locked")) (fun _ => now).

Definition config_no_key : Notifier.Config :=
  Notifier.mkConfig "" "AC00" "token" "+15550199" "*/15 * * * *" 60.

(** Libraries that accept what they are given. *)
Definition host_ok : Notifier.Host :=
  Notifier.mkHost (fun _ _ => None) (fun _ => None).

(** A Twilio constructor that insists on an account SID starting with AC. *)
Definition host_strict : Notifier.Host :=
  Notifier.mkHost
    (fun accountSid _ =>
       if String.prefix "AC" accountSid then None
       else Some (mkError "accountSid must start with AC"))
    (fun _ => None).

Definition config_bad_sid : Notifier.Config :=
  Notifier.mkConfig "ebird-key" "sid" "token" "+15550199" "*/15 * * * *" 60.

(** A database whose largest rowid is 2^53. *)
Definition database_at_2_53 : Db.Database :=
  Db.mkDatabase [Sample.subscription 9007199254740992 None None] 9007199254740992.

(** Observations with a distance from the anchor. *)
Definition sighting_at (distance : Q) (subId : string) : Ebird.Observation :=
  Ebird.mkObservation "norcar" "Northern Cardinal" "Cardinalis cardinalis"
    "Central Park" (4078 # 100) (-7397 # 100) "2024-01-01T10:00:00.000Z"
    None (Some distance) true false false subId.

Definition by_distance : list Ebird.Observation :=
  [ sighting_at (73 # 10) "S3"; sighting_at (4 # 10) "S1"; sighting_at (25 # 10) "S2" ].

End Fixture.

(** * Properties *)

Import Notifier.

(** ** The dedup filter *)

Section Dedup_facts.

Variable Date_parse : string -> option Z.

Lemma strict_eq_true (a : option string) (s : string) :
  strict_eq a s = true <-> a = Some s.
Proof.
  destruct a as [a'|]; simpl.
  - rewrite String.eqb_eq. split; congruence.
  - split; discriminate.
Qed.

Lemma isNewSighting_true subscription observation :
  isNewSighting Date_parse subscription observation = true <->
  ~ Spec.already_notified subscription observation
  /\ ~ Spec.stale Date_parse subscription observation.
Proof.
  unfold isNewSighting, Spec.already_notified, Spec.stale,
    Spec.same_submission, Spec.not_newer, parse_nullable.
  destruct (truthy (Db.lastObservationId subscription)) eqn:Hid; simpl.
  - destruct (strict_eq _ _) eqn:Heq.
    + apply strict_eq_true in Heq. split; [discriminate|]. intros [H _]. tauto.
    + assert (Db.lastObservationId subscription <> Some (Ebird.subId observation))
        by (rewrite <- strict_eq_true; congruence).
      destruct (truthy (Db.lastNotifiedAt subscription)) eqn:Hat.
      * destruct (Db.lastNotifiedAt subscription) as [s|]; [|discriminate].
        destruct (Date_parse (Ebird.obsDt observation)) as [t|];
          destruct (Date_parse s) as [tl|];
          rewrite ?negb_true_iff, ?Z.leb_gt; intuition lia.
      * intuition discriminate.
  - destruct (truthy (Db.lastNotifiedAt subscription)) eqn:Hat.
    + destruct (Db.lastNotifiedAt subscription) as [s|]; [|discriminate].
      destruct (Date_parse (Ebird.obsDt observation)) as [t|];
        destruct (Date_parse s) as [tl|];
        rewrite ?negb_true_iff, ?Z.leb_gt; intuition (try discriminate; lia).
    + intuition discriminate.
Qed.

Lemma filter_bool_prop {A} (f : A -> bool) (P : A -> Prop)
    `{!forall x, Decision (P x)} (l : list A) :
  (forall x, f x = true <-> P x) -> List.filter f l = filter P l.
Proof.
  intros Hf. induction l as [|x l IH]; [reflexivity|].
  simpl. rewrite filter_cons. destruct (decide (P x)) as [HP|HP].
  - apply Hf in HP. rewrite HP. f_equal. exact IH.
  - destruct (f x) eqn:Hx; [apply Hf in Hx; contradiction|exact IH].
Qed.

Lemma newSightings_filter subscription observations :
  newSightings Date_parse subscription observations =
  filter (fun o => ~ Spec.already_notified subscription o
                   /\ ~ Spec.stale Date_parse subscription o) observations.
Proof.
  unfold newSightings. apply filter_bool_prop.
  intros o. apply isNewSighting_true.
Qed.

Lemma latest_guard subscription latest :
  truthy (Db.lastObservationId subscription)
  && strict_eq (Db.lastObservationId subscription) (Ebird.subId latest) = true
  <-> Spec.already_notified subscription latest.
Proof.
  unfold Spec.already_notified, Spec.same_submission.
  rewrite andb_true_iff, strict_eq_true. tauto.
Qed.

Lemma candidates_unfold subscription observations :
  candidates Date_parse subscription observations =
  if decide (Spec.latest_already_notified subscription observations)
  then [] else newSightings Date_parse subscription observations.
Proof.
  unfold candidates, dedup. destruct observations as [|latest rest].
  - case_decide; reflexivity.
  - destruct (truthy _ && strict_eq _ _) eqn:G.
    + apply latest_guard in G.
      destruct (decide _) as [|n]; [reflexivity|]. destruct n. exact G.
    + destruct (decide _) as [y|_].
      * apply latest_guard in y. congruence.
      * destruct (newSightings _ _ _); reflexivity.
Qed.

(** C1 (as amended).  When the first observation of the snapshot is the
    one last notified, lines 49-77 skip the subscription and no sighting is
    a candidate.  Otherwise the candidates are the snapshot, in its order,
    without exactly the observations whose submission id equals a set
    [lastObservationId] and, when [lastNotifiedAt] is set, the observations
    whose observed-at time parses and is not later than it. *)
Theorem candidates_characterised subscription observations :
  (Spec.latest_already_notified subscription observations ->
     candidates Date_parse subscription observations = [])
  /\ (~ Spec.latest_already_notified subscription observations ->
     candidates Date_parse subscription observations =
     filter (fun o => ~ Spec.already_notified subscription o
                      /\ ~ Spec.stale Date_parse subscription o) observations)
  /\ sublist (candidates Date_parse subscription observations) observations.
Proof.
  rewrite candidates_unfold, newSightings_filter.
  destruct (decide _) as [y|n].
  - split; [reflexivity|]. split; [contradiction|]. apply sublist_nil_l.
  - split; [contradiction|]. split; [reflexivity|]. apply sublist_filter.
Qed.

End Dedup_facts.

(** ** The throttle gate *)

Section Throttle_facts.

Variable Date_parse : string -> option Z.

Lemma minutesSinceLast_lt (earliestObservation lastNotified minutes : Z) :
  (minutesSinceLast earliestObservation lastNotified ?= inject_Z minutes)%Q = Lt
  <-> earliestObservation - lastNotified < minutes * 60000.
Proof.
  rewrite <- Qlt_alt. unfold minutesSinceLast, Qlt, Qdiv, Qmult, Qinv, inject_Z.
  simpl. lia.
Qed.

(** What lines 79-88 compute: the iteration is throttled exactly when the
    cursor time is set and parses, the interval is positive, the first new
    sighting's time parses and lies less than the interval after it. *)
Lemma throttled_true_iff minutes subscription first :
  throttled Date_parse minutes subscription first = true <->
  exists lastNotifiedAt lastNotified earliestObservation,
    Db.lastNotifiedAt subscription = Some lastNotifiedAt
    /\ truthy_string lastNotifiedAt = true
    /\ 0 < minutes
    /\ Date_parse lastNotifiedAt = Some lastNotified
    /\ Date_parse (Ebird.obsDt first) = Some earliestObservation
    /\ earliestObservation - lastNotified < minutes * 60000.
Proof.
  unfold throttled, parse_nullable.
  destruct (Db.lastNotifiedAt subscription) as [s|]; simpl.
  2: { split; [discriminate|]. intros (? & ? & ? & ? & _). discriminate. }
  destruct (truthy_string s) eqn:Hs; simpl.
  2: { split; [discriminate|]. intros (? & ? & ? & [= <-] & ? & _). congruence. }
  destruct (0 <? minutes) eqn:Hm.
  2: { apply Z.ltb_ge in Hm. split; [discriminate|].
       intros (? & ? & ? & _ & _ & ? & _). lia. }
  apply Z.ltb_lt in Hm.
  destruct (Date_parse s) as [l|] eqn:Hl.
  2: { split; [discriminate|]. intros (? & ? & ? & [= <-] & _ & _ & ? & _). congruence. }
  destruct (Date_parse (Ebird.obsDt first)) as [e|] eqn:He.
  2: { split; [discriminate|]. intros (? & ? & ? & _ & _ & _ & _ & ? & _). discriminate. }
  destruct (_ ?= _)%Q eqn:Hc.
  - split; [discriminate|]. intros (s' & l' & e' & [= <-] & _ & _ & Hl' & [= <-] & Hlt).
    rewrite Hl in Hl'. injection Hl' as <-. apply minutesSinceLast_lt in Hlt. congruence.
  - apply minutesSinceLast_lt in Hc. split; [|reflexivity]. intros _.
    exists s, l, e. auto 10.
  - split; [discriminate|]. intros (s' & l' & e' & [= <-] & _ & _ & Hl' & [= <-] & Hlt).
    rewrite Hl in Hl'. injection Hl' as <-. apply minutesSinceLast_lt in Hlt. congruence.
Qed.

Lemma earliest_le_first first others : Spec.earliest first others <= first.
Proof.
  unfold Spec.earliest. induction others as [|t others IH]; simpl; lia.
Qed.

Lemma earliest_le_others first others t :
  In t others -> Spec.earliest first others <= t.
Proof.
  unfold Spec.earliest. induction others as [|t' others IH]; simpl; [tauto|].
  intros [->|Hin]; [lia|]. specialize (IH Hin). lia.
Qed.

(** Where the code and section 4.4 part: the first new sighting is at
    least the interval after the last alert, a later entry of the batch is
    not.  The code goes on to dispatch; the sentence of section 4.4, read on
    the earliest observed-at time, does not notify. *)
Lemma first_sighting_is_not_the_earliest minutes subscription first others
    lastNotifiedAt lastNotified observed times t :
  Db.lastNotifiedAt subscription = Some lastNotifiedAt ->
  Date_parse lastNotifiedAt = Some lastNotified ->
  Date_parse (Ebird.obsDt first) = Some observed ->
  mapM (fun o => Date_parse (Ebird.obsDt o)) others = Some times ->
  In t times ->
  minutes * 60000 <= observed - lastNotified ->
  t - lastNotified < minutes * 60000 ->
  throttled Date_parse minutes subscription first = false
  /\ Spec.shouldNotify Date_parse (first :: others) subscription minutes = Some false.
Proof.
  intros Hat Hl He Hts Hin Hfirst Hlater. split.
  - apply not_true_is_false. rewrite throttled_true_iff.
    intros (s & l & e & Hs & _ & _ & Hl' & He' & Hlt).
    rewrite Hat in Hs. injection Hs as <-. rewrite Hl in Hl'. injection Hl' as <-.
    rewrite He in He'. injection He' as <-. lia.
  - unfold Spec.shouldNotify. rewrite Hat, Hl. simpl. rewrite He. simpl.
    rewrite Hts. simpl. f_equal. apply Z.leb_gt.
    pose proof (earliest_le_others observed times t Hin). lia.
Qed.

End Throttle_facts.

(** ** One subscription in one cycle *)

Section Cycle_facts.

Variable Date_parse : string -> option Z.
Variable toISOString : Z -> string.

Local Abbreviation processSubscription := (processSubscription Date_parse toISOString).
Local Abbreviation commit := (commit toISOString).
Local Abbreviation notify := (notify toISOString).
Local Abbreviation advanced := (advanced toISOString).
Local Abbreviation iteration := (iteration Date_parse toISOString).
Local Abbreviation for_of := (for_of Date_parse toISOString).
Local Abbreviation execute := (execute Date_parse toISOString).
Local Abbreviation tick := (tick Date_parse toISOString).
Local Abbreviation own_write := (own_write Date_parse toISOString).

Lemma process_unfold cfg env subscription w :
  processSubscription cfg env subscription w =
  match fetch_for cfg env subscription with
  | Throw e => (Throw e, w)
  | Return feed =>
      match dedup Date_parse subscription feed with
      | Continue o => (Return o, w)
      | NewSightings primary others =>
          if throttled Date_parse (minimumNotificationMinutes cfg) subscription primary
          then (Return Throttled, w)
          else notify cfg env subscription primary others w
      end
  end.
Proof.
  unfold Notifier.processSubscription, bind, await.
  destruct (fetch_for cfg env subscription) as [feed|e]; [|reflexivity].
  destruct (dedup Date_parse subscription feed); [reflexivity|].
  destruct (throttled _ _ _ _); reflexivity.
Qed.

Lemma commit_unfold env subscription primary w :
  (commit env (Db.id subscription) (Ebird.subId primary) ;; ret (Committed primary)) w =
  match run_fault env (Db.id subscription) with
  | Some e => (Throw e, w)
  | None => (Return (Committed primary),
             mkWorld (advanced env subscription primary (table w)) (sms w) (console w))
  end.
Proof.
  unfold bind, Notifier.commit, Db.updateSubscriptionLastObservation, Notifier.advanced, ret.
  destruct (run_fault env (Db.id subscription)); reflexivity.
Qed.

Lemma notify_unfold cfg env subscription primary others w :
  notify cfg env subscription primary others w =
  if twilioClient cfg && truthy_string (twilioFromNumber cfg) then
    let message := alert cfg subscription primary others in
    let w' := mkWorld (table w) (sms w ++ [message]) (console w) in
    match messages_create env message with
    | Some e => (Throw e, w')
    | None =>
        (commit env (Db.id subscription) (Ebird.subId primary) ;;
         ret (Committed primary)) w'
    end
  else
    (commit env (Db.id subscription) (Ebird.subId primary) ;;
     ret (Committed primary)) w.
Proof.
  unfold Notifier.notify, dispatch.
  destruct (twilioClient cfg && truthy_string (twilioFromNumber cfg)).
  - unfold bind at 1. unfold send.
    destruct (messages_create env _); reflexivity.
  - reflexivity.
Qed.

(** The iteration leaves lines 49-77 early only by one of the three
    [continue] statements there. *)
Lemma dedup_continue subscription feed o :
  dedup Date_parse subscription feed = Continue o ->
  o = NoObservations \/ o = LatestAlreadyNotified \/ o = NoNewSightings.
Proof.
  unfold dedup. destruct feed as [|[|latest rest]]; try (intros [= <-]; auto).
  destruct (truthy _ && strict_eq _ _); [intros [= <-]; auto|].
  destruct (newSightings _ _ _); [intros [= <-]; auto|discriminate].
Qed.

Lemma world_eta w : mkWorld (table w) (sms w) (console w) = w.
Proof. destruct w; reflexivity. Qed.

Lemma update_absent i observationId lastNotifiedAt db :
  Db.getSubscriptionById db i = None ->
  Db.update_where_id i observationId lastNotifiedAt db = db.
Proof.
  unfold Db.getSubscriptionById, Db.update_where_id.
  induction db as [|row db IH]; simpl; [reflexivity|].
  destruct (Db.id row =? i); [discriminate|].
  intros H. rewrite (IH H). reflexivity.
Qed.

Lemma deleted_is_absent db i :
  Db.getSubscriptionById (Db.deleteSubscription db i) i = None.
Proof.
  unfold Db.getSubscriptionById, Db.deleteSubscription.
  induction db as [|row db IH]; simpl; [reflexivity|].
  destruct (Db.id row =? i) eqn:E; simpl; [exact IH|].
  rewrite E. exact IH.
Qed.

(** Every row is either left as it was or gets both cursor columns. *)
Lemma update_rows i observationId lastNotifiedAt db :
  Forall2 (fun row row' =>
             (Db.id row <> i /\ row' = row)
             \/ (Db.id row = i
                 /\ row' = Db.set_cursor observationId lastNotifiedAt row
                 /\ Db.lastObservationId row' = Some observationId
                 /\ Db.lastNotifiedAt row' = Some lastNotifiedAt))
          db (Db.update_where_id i observationId lastNotifiedAt db).
Proof.
  unfold Db.update_where_id. induction db as [|row db IH]; simpl; constructor; [|exact IH].
  destruct (Db.id row =? i) eqn:E.
  - apply Z.eqb_eq in E. right. auto.
  - apply Z.eqb_neq in E. left. auto.
Qed.

(** The outcome of lines 90-111, case by case. *)
Lemma notify_cases cfg env subscription primary others w :
  (exists e w', notify cfg env subscription primary others w = (Throw e, w')
                /\ table w' = table w
                /\ (twilioClient cfg && truthy_string (twilioFromNumber cfg) = true
                     /\ messages_create env (alert cfg subscription primary others) = Some e
                    \/ run_fault env (Db.id subscription) = Some e))
  \/ (exists w', notify cfg env subscription primary others w
                   = (Return (Committed primary), w')
                /\ table w' = advanced env subscription primary (table w)
                /\ run_fault env (Db.id subscription) = None
                /\ console w' = console w
                /\ sms w' = if twilioClient cfg && truthy_string (twilioFromNumber cfg)
                            then (sms w ++ [alert cfg subscription primary others])%list
                            else sms w).
Proof.
  rewrite notify_unfold.
  destruct (twilioClient cfg && truthy_string (twilioFromNumber cfg)); cbv zeta.
  - destruct (messages_create env _) as [e|] eqn:Hsend.
    + left. eexists _, _. split; [reflexivity|]. simpl. auto.
    + rewrite commit_unfold.
      destruct (run_fault env (Db.id subscription)) as [e|] eqn:Hrun.
      * left. eexists _, _. split; [reflexivity|]. simpl. auto.
      * right. eexists. split; [reflexivity|]. simpl. auto.
  - rewrite commit_unfold.
    destruct (run_fault env (Db.id subscription)) as [e|] eqn:Hrun.
    + left. eexists _, _. split; [reflexivity|]. simpl. auto.
    + right. eexists. split; [reflexivity|]. simpl. auto.
Qed.

Lemma iteration_unfold cfg env subscription w :
  iteration cfg env subscription w =
  match processSubscription cfg env subscription w with
  | (Return _, w') => (Return tt, w')
  | (Throw e, w') =>
      (Return tt,
       mkWorld (table w') (sms w')
         (console w' ++ [mkLogLine ("[notifier] Failed to process subscription "
                                      ++ toString (Db.id subscription) ++ ":")%string
                                   (Some e)]))
  end.
Proof.
  unfold Notifier.iteration, try_catch, bind at 1.
  destruct (processSubscription cfg env subscription w) as [[o|e] w']; reflexivity.
Qed.

(** C4.  When the feed fetch fails, or the alert dispatch fails, the
    iteration ends in the [catch] with the table as it was: the cursor of
    the subscription keeps both its columns, so the next cycle starts from
    the same cursor. *)
Theorem cursor_unchanged_on_failure cfg env subscription w :
  (exists e, fetch_for cfg env subscription = Throw e)
  \/ (exists feed primary others e,
        fetch_for cfg env subscription = Return feed
        /\ dedup Date_parse subscription feed = NewSightings primary others
        /\ throttled Date_parse (minimumNotificationMinutes cfg) subscription primary = false
        /\ twilioClient cfg && truthy_string (twilioFromNumber cfg) = true
        /\ messages_create env (alert cfg subscription primary others) = Some e) ->
  (exists e, fst (processSubscription cfg env subscription w) = Throw e)
  /\ table (snd (processSubscription cfg env subscription w)) = table w
  /\ fst (iteration cfg env subscription w) = Return tt
  /\ table (snd (iteration cfg env subscription w)) = table w.
Proof.
  intros Hfail.
  assert (Hbody : exists e w', processSubscription cfg env subscription w = (Throw e, w')
                               /\ table w' = table w).
  { rewrite process_unfold.
    destruct Hfail as [[e Hfetch]|(feed & primary & others & e & Hfetch & Hdedup & Hthr & Hon & Hsend)].
    - rewrite Hfetch. eauto.
    - rewrite Hfetch, Hdedup, Hthr, notify_unfold, Hon. cbv zeta. rewrite Hsend.
      eexists _, _. split; [reflexivity|reflexivity]. }
  destruct Hbody as (e & w' & Hbody & Htable).
  rewrite iteration_unfold, Hbody. simpl. eauto.
Qed.

(** C6.  An iteration changes the table only by the cursor write of line
    111, and only when it ends as [Committed]; that write gives every row
    of the subscription both [lastObservationId] (the primary sighting's
    submission id) and [lastNotifiedAt] (the clock reading of the commit)
    and leaves every other row as it was: no row gets one column without
    the other. *)
Theorem commit_writes_cursor_together cfg env subscription w :
  match processSubscription cfg env subscription w with
  | (Return (Committed primary), w') =>
      table w' = advanced env subscription primary (table w)
      /\ Forall2 (fun row row' =>
                    (Db.id row <> Db.id subscription /\ row' = row)
                    \/ (Db.id row = Db.id subscription
                        /\ row' = Db.set_cursor (Ebird.subId primary)
                                    (toISOString (clock env (Db.id subscription))) row
                        /\ Db.lastObservationId row' = Some (Ebird.subId primary)
                        /\ Db.lastNotifiedAt row'
                           = Some (toISOString (clock env (Db.id subscription)))))
                 (table w) (table w')
  | (_, w') => table w' = table w
  end.
Proof.
  rewrite process_unfold.
  destruct (fetch_for cfg env subscription) as [feed|e]; [|reflexivity].
  destruct (dedup Date_parse subscription feed) as [o|primary others] eqn:Hdedup.
  { destruct (dedup_continue _ _ _ Hdedup) as [-> | [-> | ->]]; reflexivity. }
  destruct (throttled _ _ _ _); [reflexivity|].
  destruct (notify_cases cfg env subscription primary others w)
    as [(e & w' & -> & Ht & _)|(w' & -> & Ht & _)].
  - exact Ht.
  - split; [exact Ht|]. rewrite Ht. apply update_rows.
Qed.

(** C7.  A cursor write addressed to an id with no row (for instance a
    subscription deleted in the middle of a cycle) returns normally and
    leaves the table as it was; the row is still absent afterwards. *)
Theorem cursor_write_to_absent_row env i observationId w :
  Db.getSubscriptionById (table w) i = None ->
  run_fault env i = None ->
  Db.updateSubscriptionLastObservation toISOString None (clock env i) i
    observationId (table w) = Return (table w)
  /\ commit env i observationId w = (Return tt, w)
  /\ Db.getSubscriptionById (table (snd (commit env i observationId w))) i = None.
Proof.
  intros Habsent Hrun.
  assert (Hnoop : commit env i observationId w = (Return tt, w)).
  { unfold Notifier.commit, Db.updateSubscriptionLastObservation.
    rewrite Hrun, (update_absent _ _ _ _ Habsent). f_equal. apply world_eta. }
  split.
  - unfold Db.updateSubscriptionLastObservation.
    rewrite (update_absent _ _ _ _ Habsent). reflexivity.
  - split; [exact Hnoop|]. rewrite Hnoop. exact Habsent.
Qed.

(** A row deleted while its subscription is being processed is not
    brought back by the cursor write that follows. *)
Lemma deleted_row_is_not_resurrected env i observationId db outbox lines :
  run_fault env i = None ->
  commit env i observationId (mkWorld (Db.deleteSubscription db i) outbox lines)
  = (Return tt, mkWorld (Db.deleteSubscription db i) outbox lines).
Proof.
  intros Hrun. unfold Notifier.commit, Db.updateSubscriptionLastObservation.
  rewrite Hrun. simpl. rewrite update_absent by apply deleted_is_absent.
  reflexivity.
Qed.

(** C10.  With a qualifying non-empty batch, an interval that is zero or
    negative, or a stored [lastNotifiedAt] that does not parse to a finite
    instant, skips the throttle of lines 79-88: the iteration goes on to
    the dispatch of lines 90-111 whatever the time of the last alert. *)
Theorem throttle_edge_cases cfg env subscription feed primary others w :
  minimumNotificationMinutes cfg <= 0
  \/ parse_nullable Date_parse (Db.lastNotifiedAt subscription) = None ->
  fetch_for cfg env subscription = Return feed ->
  dedup Date_parse subscription feed = NewSightings primary others ->
  throttled Date_parse (minimumNotificationMinutes cfg) subscription primary = false
  /\ processSubscription cfg env subscription w =
     notify cfg env subscription primary others w.
Proof.
  intros Hedge Hfetch Hdedup.
  assert (Hthr : throttled Date_parse (minimumNotificationMinutes cfg)
                   subscription primary = false).
  { apply not_true_is_false. rewrite throttled_true_iff.
    intros (s & l & e & Hs & _ & Hpos & Hl & _).
    destruct Hedge as [Hle|Hnan]; [lia|].
    rewrite Hs in Hnan. simpl in Hnan. congruence. }
  split; [exact Hthr|].
  rewrite process_unfold, Hfetch, Hdedup, Hthr. reflexivity.
Qed.

(** C9.  Without a Twilio client or without a sender number, a batch that
    passes dedup and throttle still advances the cursor to the primary
    sighting with a fresh notification time, and no message is handed to
    the gateway: the requests and the console are as before, and in the
    table every row of the subscription's id now has [lastObservationId]
    equal to the primary sighting's submission id and [lastNotifiedAt]
    equal to the clock reading of the write, every other row being as it
    was. *)
Theorem cursor_advances_without_sms cfg env subscription feed primary others w :
  twilioClient cfg = false \/ truthy_string (twilioFromNumber cfg) = false ->
  fetch_for cfg env subscription = Return feed ->
  dedup Date_parse subscription feed = NewSightings primary others ->
  throttled Date_parse (minimumNotificationMinutes cfg) subscription primary = false ->
  run_fault env (Db.id subscription) = None ->
  processSubscription cfg env subscription w =
  (Return (Committed primary),
   mkWorld (advanced env subscription primary (table w)) (sms w) (console w))
  /\ Forall2 (fun row row' =>
                (Db.id row <> Db.id subscription /\ row' = row)
                \/ (Db.id row = Db.id subscription
                    /\ row' = Db.mkSubscription (Db.id row) (Db.phone row)
                                (Db.speciesCode row) (Db.speciesCommonName row)
                                (Db.locationLabel row) (Db.latitude row)
                                (Db.longitude row) (Db.radiusMiles row)
                                (Db.lookBackDays row) (Db.createdAt row)
                                (Some (Ebird.subId primary))
                                (Some (toISOString (clock env (Db.id subscription))))))
             (table w) (table (snd (processSubscription cfg env subscription w))).
Proof.
  intros Hoff Hfetch Hdedup Hthr Hrun.
  assert (Hrun' : processSubscription cfg env subscription w =
                  (Return (Committed primary),
                   mkWorld (advanced env subscription primary (table w))
                     (sms w) (console w))).
  { rewrite process_unfold, Hfetch, Hdedup, Hthr, notify_unfold.
    replace (twilioClient cfg && truthy_string (twilioFromNumber cfg)) with false
      by (destruct Hoff as [-> | ->]; [reflexivity|rewrite andb_false_r; reflexivity]).
    rewrite commit_unfold, Hrun. reflexivity. }
  split; [exact Hrun'|]. rewrite Hrun'. simpl.
  unfold Notifier.advanced.
  eapply Forall2_impl; [apply update_rows|].
  intros row row' [H|(Hid & -> & _)]; [left; exact H|].
  right. split; [exact Hid|reflexivity].
Qed.

(** *** Replaying a snapshot after a commit *)

Lemma truthy_Some s : s <> "" -> truthy (Some s) = true.
Proof.
  intros Hs. simpl. unfold truthy_string.
  destruct (String.eqb_spec s ""); [contradiction|reflexivity].
Qed.

Lemma process_table_effect cfg env subscription w :
  match processSubscription cfg env subscription w with
  | (Return (Committed primary), w') =>
      table w' = advanced env subscription primary (table w)
  | (_, w') => table w' = table w
  end.
Proof.
  rewrite process_unfold.
  destruct (fetch_for cfg env subscription) as [feed|e]; [|reflexivity].
  destruct (dedup Date_parse subscription feed) as [o|primary others] eqn:Hdedup.
  { destruct (dedup_continue _ _ _ Hdedup) as [-> | [-> | ->]]; reflexivity. }
  destruct (throttled _ _ _ _); [reflexivity|].
  destruct (notify_cases cfg env subscription primary others w)
    as [(e & w' & -> & Ht & _)|(w' & -> & Ht & _)]; exact Ht.
Qed.

Lemma process_committed cfg env subscription w primary w1 :
  processSubscription cfg env subscription w = (Return (Committed primary), w1) ->
  exists feed others,
    fetch_for cfg env subscription = Return feed
    /\ dedup Date_parse subscription feed = NewSightings primary others
    /\ table w1 = advanced env subscription primary (table w).
Proof.
  intros H. pose proof (process_table_effect cfg env subscription w) as Ht.
  rewrite H in Ht. revert H. rewrite process_unfold.
  destruct (fetch_for cfg env subscription) as [feed|e]; [|discriminate].
  destruct (dedup Date_parse subscription feed) as [o|p others] eqn:Hdedup.
  { destruct (dedup_continue _ _ _ Hdedup) as [-> | [-> | ->]]; discriminate. }
  destruct (throttled _ _ _ _); [discriminate|].
  destruct (notify_cases cfg env subscription p others w)
    as [(e & w' & -> & _)|(w' & -> & _)]; [discriminate|].
  intros [= -> ->]. eauto.
Qed.

Lemma advanced_row env subscription primary db row' :
  In row' (advanced env subscription primary db) ->
  Db.id row' = Db.id subscription ->
  Db.lastObservationId row' = Some (Ebird.subId primary)
  /\ Db.lastNotifiedAt row' = Some (toISOString (clock env (Db.id subscription))).
Proof.
  unfold Notifier.advanced, Db.update_where_id. rewrite in_map_iff.
  intros (row & Hrow & _) Hid.
  destruct (Db.id row =? Db.id subscription) eqn:E.
  - subst row'. auto.
  - subst row'. apply Z.eqb_neq in E. contradiction.
Qed.

Lemma newSightings_all_stale subscription observations :
  Forall (Spec.stale Date_parse subscription) observations ->
  newSightings Date_parse subscription observations = [].
Proof.
  unfold newSightings. induction 1 as [|o l Ho _ IH]; [reflexivity|].
  simpl. destruct (isNewSighting _ _ _) eqn:E; [|exact IH].
  apply isNewSighting_true in E. tauto.
Qed.

Lemma candidates_nil_dedup subscription latest rest :
  candidates Date_parse subscription (latest :: rest) = [] ->
  dedup Date_parse subscription (Ebird.Observations (latest :: rest))
    = Continue LatestAlreadyNotified
  \/ dedup Date_parse subscription (Ebird.Observations (latest :: rest))
    = Continue NoNewSightings.
Proof.
  unfold candidates, dedup.
  destruct (truthy _ && strict_eq _ _); [auto|].
  destruct (newSightings _ _ _); [auto|discriminate].
Qed.


(** *** The loop over the subscriptions *)

Lemma outcome_independent cfg env subscription w1 w2 :
  fst (processSubscription cfg env subscription w1)
  = fst (processSubscription cfg env subscription w2).
Proof.
  rewrite !process_unfold.
  destruct (fetch_for cfg env subscription) as [feed|e]; [|reflexivity].
  destruct (dedup Date_parse subscription feed) as [o|primary others]; [reflexivity|].
  destruct (throttled _ _ _ _); [reflexivity|].
  rewrite !notify_unfold.
  destruct (twilioClient cfg && truthy_string (twilioFromNumber cfg)); cbv zeta.
  - destruct (messages_create env _); [reflexivity|].
    rewrite !commit_unfold. destruct (run_fault env _); reflexivity.
  - rewrite !commit_unfold. destruct (run_fault env _); reflexivity.
Qed.

Lemma process_table cfg env subscription w w' :
  table (snd (processSubscription cfg env subscription w'))
  = own_write cfg env w (table w') subscription.
Proof.
  unfold Notifier.own_write.
  rewrite (outcome_independent cfg env subscription w w').
  pose proof (process_table_effect cfg env subscription w') as H.
  destruct (processSubscription cfg env subscription w') as [[o|e] w'']; simpl.
  - destruct o; exact H.
  - exact H.
Qed.

Lemma iteration_table cfg env subscription w :
  table (snd (iteration cfg env subscription w))
  = table (snd (processSubscription cfg env subscription w)).
Proof.
  rewrite iteration_unfold.
  destruct (processSubscription cfg env subscription w) as [[o|e] w']; reflexivity.
Qed.

Lemma iteration_returns cfg env subscription w :
  fst (iteration cfg env subscription w) = Return tt.
Proof.
  rewrite iteration_unfold.
  destruct (processSubscription cfg env subscription w) as [[o|e] w']; reflexivity.
Qed.

Lemma for_of_cons cfg env subscription rest w :
  for_of cfg env (subscription :: rest) w
  = for_of cfg env rest (snd (iteration cfg env subscription w)).
Proof.
  simpl. unfold bind at 1. pose proof (iteration_returns cfg env subscription w) as H.
  destruct (iteration cfg env subscription w) as [[[]|e] w']; [reflexivity|discriminate].
Qed.

Lemma for_of_app cfg env before after w :
  for_of cfg env (before ++ after) w
  = for_of cfg env after (snd (for_of cfg env before w)).
Proof.
  revert w. induction before as [|s before IH]; intros w; [reflexivity|].
  rewrite <- app_comm_cons, !for_of_cons. apply IH.
Qed.

Lemma for_of_returns cfg env subscriptions w :
  fst (for_of cfg env subscriptions w) = Return tt.
Proof.
  revert w. induction subscriptions as [|s l IH]; intros w; [reflexivity|].
  rewrite for_of_cons. apply IH.
Qed.

Lemma for_of_table cfg env subscriptions w w' :
  table (snd (for_of cfg env subscriptions w'))
  = fold_left (own_write cfg env w) subscriptions (table w').
Proof.
  revert w'. induction subscriptions as [|s l IH]; intros w'; [reflexivity|].
  rewrite for_of_cons, IH, iteration_table, (process_table cfg env s w w').
  reflexivity.
Qed.

Lemma execute_for_of cfg env w :
  execute cfg env w = for_of cfg env (Db.listSubscriptions (table w)) w.
Proof.
  unfold Notifier.execute. destruct (Db.listSubscriptions (table w)); reflexivity.
Qed.

(** C8.  Let the pipeline of subscription [A] throw when its turn comes
    (a fetch, dispatch or store failure).  The error is caught at [A]'s
    iteration, and the rest of the cycle runs from the world that iteration
    leaves.  The table at the end of the loop is the table at its start
    with, for every other subscription in turn, exactly the cursor write
    that subscription's own pipeline asks for, and nothing for [A]; the
    outcome of a pipeline does not depend on the world the earlier
    subscriptions left.  The loop, the cycle and the scheduled callback
    all return normally. *)
Theorem failure_is_isolated cfg env before A after w e :
  fst (processSubscription cfg env A (snd (for_of cfg env before w))) = Throw e ->
  for_of cfg env (before ++ A :: after) w
    = for_of cfg env after (snd (iteration cfg env A (snd (for_of cfg env before w))))
  /\ table (snd (for_of cfg env (before ++ A :: after) w))
     = fold_left (own_write cfg env w) (before ++ after) (table w)
  /\ (forall B w', fst (processSubscription cfg env B w')
                   = fst (processSubscription cfg env B w))
  /\ fst (for_of cfg env (before ++ A :: after) w) = Return tt
  /\ fst (execute cfg env w) = Return tt
  /\ fst (tick cfg env w) = Return tt.
Proof.
  intros Hthrow.
  split; [rewrite for_of_app, for_of_cons; reflexivity|].
  split.
  { rewrite (for_of_table cfg env _ w w), !fold_left_app. simpl.
    f_equal. unfold Notifier.own_write at 1.
    rewrite (outcome_independent cfg env A w (snd (for_of cfg env before w))), Hthrow.
    reflexivity. }
  split; [intros B w'; apply outcome_independent|].
  split; [apply for_of_returns|].
  assert (Hexec : fst (execute cfg env w) = Return tt)
    by (rewrite execute_for_of; apply for_of_returns).
  split; [exact Hexec|].
  unfold Notifier.tick, try_catch.
  destruct (execute cfg env w) as [[[]|e'] w']; [reflexivity|discriminate].
Qed.

End Cycle_facts.

(** ** The feed client *)

Lemma unsuccessful_is_thrown fetch speciesCode latitude longitude radiusMiles
    lookBackDays apiKey response :
  truthy_string apiKey = true ->
  fetch (Ebird.mkRequest speciesCode latitude longitude radiusMiles lookBackDays
           (Some "10") apiKey) = Ebird.Resolved response ->
  Ebird.ok response = false ->
  Ebird.fetchRecentObservations fetch speciesCode latitude longitude radiusMiles
    lookBackDays apiKey
  = Throw (mkError ("eBird API returned " ++ toString (Ebird.status response)
                    ++ " " ++ Ebird.statusText response ++ ": "
                    ++ Ebird.text response)%string).
Proof.
  intros Hkey Hfetch Hok. unfold Ebird.fetchRecentObservations.
  rewrite Hkey, Hfetch, Hok. reflexivity.
Qed.

(** C3, at a 404 response.  The engine's client throws
    [eBird API returned 404 Not Found: ...] where the claim asks for an
    empty sequence; the browser's client, given the same response, returns
    the empty array.  In the cycle the error reaches the [catch] of the
    iteration and is logged as a failure of the subscription. *)
Theorem not_found_is_thrown :
  Ebird.fetchRecentObservations (Sample.answering Sample.not_found)
    "norcar" (4071 # 100) (-7400 # 100) 25 3 "ebird-key"
  = Throw (mkError "eBird API returned 404 Not Found: ")
  /\ Ebird.fetchRecentObservations_browser Iso.parse
       (Sample.answering Sample.not_found)
       "norcar" (4071 # 100) (-7400 # 100) 25 3 "ebird-key"
     = Return []
  /\ iteration Iso.parse Iso.toISOString Sample.config
       (Sample.env_ok (Sample.answering Sample.not_found) Sample.at_10_05)
       Sample.fresh (Sample.empty_world [Sample.fresh])
     = (Return tt,
        mkWorld [Sample.fresh] []
          [mkLogLine "[notifier] Failed to process subscription 3:"
             (Some (mkError "eBird API returned 404 Not Found: "))]).
Proof. vm_compute. auto. Qed.

(** ** Concrete runs *)

Example iso_parse_sample :
  Iso.parse "2024-01-01T10:00:00.000Z" = Some 1704103200000.
Proof. vm_compute. reflexivity. Qed.

Example iso_print_sample :
  Iso.toISOString Sample.at_12_05 = "2024-01-01T12:05:00.000Z".
Proof. vm_compute. reflexivity. Qed.

Example iso_parse_rejects :
  Iso.parse "yesterday" = None /\ Iso.parse "" = None
  /\ Iso.parse "2023-02-29T00:00:00.000Z" = None.
Proof. vm_compute. auto. Qed.

Example alert_text :
  alertMessage Sample.notified_at_10
    (Sample.sighting "S102" "2024-01-01T11:01:00.000Z") 1
  = "BirdTrail alert: Northern Cardinal Latest at Central Park (2024-01-01T11:01:00.000Z). 1 more sightings nearby in the last check. Search radius 25mi around New York, NY. Reply STOP to unsubscribe.".
Proof. vm_compute. reflexivity. Qed.

(** The first cycle of section 8: a new subscription and one observation. *)
Example first_cycle_commits :
  processSubscription Iso.parse Iso.toISOString Sample.config
    (Sample.env_ok (Sample.feed_of Sample.snapshot_single) Sample.at_10_05)
    Sample.fresh (Sample.empty_world [Sample.fresh])
  = (Return (Committed (Sample.sighting "S100" "2024-01-01T10:00:00.000Z")),
     mkWorld [Sample.subscription 3 (Some "S100") (Some "2024-01-01T10:05:00.000Z")]
       [alert Sample.config Sample.fresh
          (Sample.sighting "S100" "2024-01-01T10:00:00.000Z") []]
       []).
Proof. vm_compute. reflexivity. Qed.

(** C1, counterexample.  The cursor is ([S100], 10:05) and the snapshot
    lists [S100] of 12:00, then [S101] of 11:00.  By the claim [S101] is
    kept: its id differs and 11:00 is after 10:05.  The code leaves at the
    [continue] of line 59 and keeps nothing. *)
Lemma dedup_skips_whole_snapshot :
  candidates Iso.parse Sample.cursor_on_S100 Sample.snapshot_S100_first = []
  /\ Spec.newSightings Iso.parse Sample.cursor_on_S100 Sample.snapshot_S100_first
     = [Sample.sighting "S101" "2024-01-01T11:00:00.000Z"]
  /\ candidates Iso.parse Sample.cursor_on_S100 Sample.snapshot_S100_first
     <> Spec.newSightings Iso.parse Sample.cursor_on_S100 Sample.snapshot_S100_first.
Proof. vm_compute. repeat split; try reflexivity. discriminate. Qed.

Lemma candidates_characterised_witness :
  candidates Iso.parse Sample.cursor_on_S100 Sample.snapshot_S100_first = []
  /\ candidates Iso.parse Sample.notified_at_09 Sample.snapshot_ahead_of_clock
     = filter (fun o => ~ Spec.already_notified Sample.notified_at_09 o
                        /\ ~ Spec.stale Iso.parse Sample.notified_at_09 o)
              Sample.snapshot_ahead_of_clock.
Proof.
  split.
  - apply (candidates_characterised Iso.parse Sample.cursor_on_S100
             Sample.snapshot_S100_first).
    vm_compute. split; reflexivity.
  - apply (candidates_characterised Iso.parse Sample.notified_at_09
             Sample.snapshot_ahead_of_clock).
    vm_compute. intros [_ H]. discriminate H.
Defined.

(** C2, at a batch whose first sighting is not its earliest.  The last
    alert is of 10:00 and the interval is 60 minutes; the new sightings are
    [S102] of 11:01 and [S101] of 10:30, in feed order.  The earliest is 30
    minutes after the alert, so by the claim nothing is sent; lines 79-88
    read the time of [newSightings[0]], 61 minutes after the alert, and the
    iteration sends the alert and commits. *)
Theorem throttle_reads_first_sighting :
  candidates Iso.parse Sample.notified_at_10 Sample.batch_61_then_30
    = Sample.batch_61_then_30
  /\ Spec.shouldNotify Iso.parse Sample.batch_61_then_30 Sample.notified_at_10 60
     = Some false
  /\ throttled Iso.parse 60 Sample.notified_at_10
       (Sample.sighting "S102" "2024-01-01T11:01:00.000Z") = false
  /\ processSubscription Iso.parse Iso.toISOString Sample.config
       (Sample.env_ok (Sample.feed_of Sample.batch_61_then_30) Sample.at_12_05)
       Sample.notified_at_10 (Sample.empty_world [Sample.notified_at_10])
     = (Return (Committed (Sample.sighting "S102" "2024-01-01T11:01:00.000Z")),
        mkWorld [Sample.subscription 2 (Some "S102") (Some "2024-01-01T12:05:00.000Z")]
          [alert Sample.config Sample.notified_at_10
             (Sample.sighting "S102" "2024-01-01T11:01:00.000Z")
             [Sample.sighting "S101" "2024-01-01T10:30:00.000Z"]]
          []).
Proof. vm_compute. auto. Qed.

Lemma throttle_edge_cases_witness :
  processSubscription Iso.parse Iso.toISOString Sample.config_unthrottled
    (Sample.env_ok (Sample.feed_of Sample.snapshot_S101) Sample.at_12_05)
    Sample.notified_at_10 (Sample.empty_world [Sample.notified_at_10])
  = notify Iso.toISOString Sample.config_unthrottled
      (Sample.env_ok (Sample.feed_of Sample.snapshot_S101) Sample.at_12_05)
      Sample.notified_at_10 (Sample.sighting "S101" "2024-01-01T10:30:00.000Z") []
      (Sample.empty_world [Sample.notified_at_10])
  /\ throttled Iso.parse 60 Sample.notified_garbled
       (Sample.sighting "S101" "2024-01-01T10:30:00.000Z") = false.
Proof.
  split.
  - apply (throttle_edge_cases Iso.parse Iso.toISOString Sample.config_unthrottled
             (Sample.env_ok (Sample.feed_of Sample.snapshot_S101) Sample.at_12_05)
             Sample.notified_at_10 (Ebird.Observations Sample.snapshot_S101)).
    + left. simpl. lia.
    + vm_compute. reflexivity.
    + vm_compute. reflexivity.
  - apply (throttle_edge_cases Iso.parse Iso.toISOString Sample.config
             (Sample.env_ok (Sample.feed_of Sample.snapshot_S101) Sample.at_12_05)
             Sample.notified_garbled (Ebird.Observations Sample.snapshot_S101)
             (Sample.sighting "S101" "2024-01-01T10:30:00.000Z") []
             (Sample.empty_world [Sample.notified_garbled])).
    + right. vm_compute. reflexivity.
    + vm_compute. reflexivity.
    + vm_compute. reflexivity.
Defined.

Lemma cursor_advances_without_sms_witness :
  processSubscription Iso.parse Iso.toISOString Sample.config_no_sms
    (Sample.env_ok (Sample.feed_of Sample.snapshot_single) Sample.at_10_05)
    Sample.fresh (Sample.empty_world [Sample.fresh])
  = (Return (Committed (Sample.sighting "S100" "2024-01-01T10:00:00.000Z")),
     mkWorld
       [Db.mkSubscription 3 "+15550100" "norcar" "Northern Cardinal" "New York, NY"
          (4071 # 100) (-7400 # 100) 25 3 "2023-12-31T08:00:00.000Z"
          (Some "S100") (Some "2024-01-01T10:05:00.000Z")]
       [] []).
Proof.
  destruct (cursor_advances_without_sms Iso.parse Iso.toISOString Sample.config_no_sms
              (Sample.env_ok (Sample.feed_of Sample.snapshot_single) Sample.at_10_05)
              Sample.fresh (Ebird.Observations Sample.snapshot_single)
              (Sample.sighting "S100" "2024-01-01T10:00:00.000Z") []
              (Sample.empty_world [Sample.fresh])) as [Hrun _].
  - left. vm_compute. reflexivity.
  - vm_compute. reflexivity.
  - vm_compute. reflexivity.
  - vm_compute. reflexivity.
  - reflexivity.
  - rewrite Hrun. vm_compute. reflexivity.
Defined.

(** Without credentials the cursor moves and the outbox stays empty. *)
Example no_sms_run :
  processSubscription Iso.parse Iso.toISOString Sample.config_no_sms
    (Sample.env_ok (Sample.feed_of Sample.snapshot_single) Sample.at_10_05)
    Sample.fresh (Sample.empty_world [Sample.fresh])
  = (Return (Committed (Sample.sighting "S100" "2024-01-01T10:00:00.000Z")),
     mkWorld [Sample.subscription 3 (Some "S100") (Some "2024-01-01T10:05:00.000Z")]
       [] []).
Proof. vm_compute. reflexivity. Qed.

Lemma cursor_unchanged_on_failure_witness :
  table (snd (iteration Iso.parse Iso.toISOString Sample.config
                (Sample.env_ok (Sample.answering Sample.server_error) Sample.at_10_05)
                Sample.fresh (Sample.empty_world [Sample.fresh])))
  = [Sample.fresh]
  /\ table (snd (iteration Iso.parse Iso.toISOString Sample.config
                   (Sample.env_gateway_down (Sample.feed_of Sample.snapshot_single)
                      Sample.at_10_05)
                   Sample.fresh (Sample.empty_world [Sample.fresh])))
     = [Sample.fresh].
Proof.
  split.
  - apply (cursor_unchanged_on_failure Iso.parse Iso.toISOString Sample.config
             (Sample.env_ok (Sample.answering Sample.server_error) Sample.at_10_05)
             Sample.fresh (Sample.empty_world [Sample.fresh])).
    left. eexists. vm_compute. reflexivity.
  - apply (cursor_unchanged_on_failure Iso.parse Iso.toISOString Sample.config
             (Sample.env_gateway_down (Sample.feed_of Sample.snapshot_single)
                Sample.at_10_05)
             Sample.fresh (Sample.empty_world [Sample.fresh])).
    right.
    exists (Ebird.Observations Sample.snapshot_single),
           (Sample.sighting "S100" "2024-01-01T10:00:00.000Z"), [],
           (mkError "Twilio: service unavailable").
    vm_compute. repeat split; reflexivity.
Defined.

Lemma cursor_write_to_absent_row_witness :
  commit Iso.toISOString (Sample.env_ok (Sample.feed_of []) Sample.at_10_05) 3 "S100"
    (Sample.empty_world (Db.deleteSubscription [Sample.fresh; Sample.healthy] 3))
  = (Return tt,
     Sample.empty_world (Db.deleteSubscription [Sample.fresh; Sample.healthy] 3)).
Proof.
  apply (cursor_write_to_absent_row Iso.toISOString
           (Sample.env_ok (Sample.feed_of []) Sample.at_10_05) 3 "S100"
           (Sample.empty_world (Db.deleteSubscription [Sample.fresh; Sample.healthy] 3))).
  - vm_compute. reflexivity.
  - reflexivity.
Defined.



Lemma failure_is_isolated_witness :
  table (snd (for_of Iso.parse Iso.toISOString Sample.config
                (Sample.env_ok Sample.eagle_feed_down Sample.at_10_05)
                ([] ++ Sample.failing :: [Sample.healthy])
                (Sample.empty_world [Sample.failing; Sample.healthy])))
  = fold_left (own_write Iso.parse Iso.toISOString Sample.config
                 (Sample.env_ok Sample.eagle_feed_down Sample.at_10_05)
                 (Sample.empty_world [Sample.failing; Sample.healthy]))
      ([] ++ [Sample.healthy]) [Sample.failing; Sample.healthy].
Proof.
  apply (failure_is_isolated Iso.parse Iso.toISOString Sample.config
           (Sample.env_ok Sample.eagle_feed_down Sample.at_10_05)
           [] Sample.failing [Sample.healthy]
           (Sample.empty_world [Sample.failing; Sample.healthy])
           (mkError "eBird API returned 500 Internal Server Error: try later")).
  vm_compute. reflexivity.
Defined.

(** A whole cycle in which the feed fails for the first subscription: the
    failure is logged, the second subscription is alerted and committed. *)
Example cycle_with_one_failure :
  execute Iso.parse Iso.toISOString Sample.config
    (Sample.env_ok Sample.eagle_feed_down Sample.at_10_05)
    (Sample.empty_world [Sample.healthy; Sample.failing])
  = (Return tt,
     mkWorld
       [Db.set_cursor "S100" "2024-01-01T10:05:00.000Z" Sample.healthy; Sample.failing]
       [alert Sample.config Sample.healthy
          (Sample.sighting "S100" "2024-01-01T10:00:00.000Z") []]
       [mkLogLine "[notifier] Failed to process subscription 4:"
          (Some (mkError "eBird API returned 500 Internal Server Error: try later"))]).
Proof. vm_compute. reflexivity. Qed.

(** * More of the code *)

(** ** Listing the subscriptions ([db.js]) *)

Section Listing_facts.

Lemma ascii_compare_N (a b : ascii) :
  Ascii.compare a b = N.compare (N_of_ascii a) (N_of_ascii b).
Proof. reflexivity. Qed.

Lemma string_compare_not_Lt_trans (a b c : string) :
  String.compare a b <> Lt -> String.compare b c <> Lt -> String.compare a c <> Lt.
Proof.
  revert b c. induction a as [|x a IH]; intros [|y b] [|z c]; simpl; try congruence.
  rewrite !ascii_compare_N.
  destruct (N.compare_spec (N_of_ascii x) (N_of_ascii y)) as [Hxy|Hxy|Hxy];
    destruct (N.compare_spec (N_of_ascii y) (N_of_ascii z)) as [Hyz|Hyz|Hyz];
    try congruence.
  - rewrite Hxy, Hyz, N.compare_refl. apply IH.
  - intros _ _. rewrite Hxy. apply N.compare_gt_iff in Hyz. rewrite Hyz. discriminate.
  - intros _ _. rewrite <- Hyz. apply N.compare_gt_iff in Hxy. rewrite Hxy. discriminate.
  - intros _ _. assert (H : (N_of_ascii z < N_of_ascii x)%N) by lia.
    apply N.compare_gt_iff in H. rewrite H. discriminate.
Qed.

Lemma ltb_false_not_Lt (a b : string) :
  String.ltb a b = false <-> String.compare a b <> Lt.
Proof.
  unfold String.ltb. destruct (String.compare a b); split; congruence.
Qed.

Lemma not_older_trans a b c :
  Inv.not_older a b -> Inv.not_older b c -> Inv.not_older a c.
Proof.
  unfold Inv.not_older. rewrite !ltb_false_not_Lt. apply string_compare_not_Lt_trans.
Qed.

Lemma ltb_true_not_older a b :
  String.ltb (Db.createdAt a) (Db.createdAt b) = true -> Inv.not_older b a.
Proof.
  unfold Inv.not_older, String.ltb.
  rewrite (String.compare_antisym (Db.createdAt b) (Db.createdAt a)).
  destruct (String.compare (Db.createdAt a) (Db.createdAt b)); simpl; congruence.
Qed.

Lemma insert_desc_perm row sorted :
  Permutation (Db.insert_desc row sorted) (row :: sorted).
Proof.
  induction sorted as [|r rest IH]; simpl; [reflexivity|].
  destruct (String.ltb _ _); [|reflexivity].
  rewrite IH. apply perm_swap.
Qed.

Lemma insert_desc_sorted row sorted :
  StronglySorted Inv.not_older sorted ->
  StronglySorted Inv.not_older (Db.insert_desc row sorted).
Proof.
  induction 1 as [|r rest Hrest IH Hall]; simpl.
  - constructor; constructor.
  - destruct (String.ltb (Db.createdAt row) (Db.createdAt r)) eqn:E.
    + constructor; [exact IH|].
      rewrite (insert_desc_perm row rest). constructor; [|exact Hall].
      apply ltb_true_not_older, E.
    + constructor; [constructor; assumption|].
      constructor; [exact E|].
      eapply Forall_impl; [exact Hall|]. intros c Hc.
      eapply not_older_trans; [exact E|exact Hc].
Qed.

(** X1.  [listSubscriptions] returns every row of the table exactly once,
    newest first: each listed row was created no earlier than every row
    listed after it. *)
Theorem listSubscriptions_newest_first (db : Db.Table) :
  Permutation (Db.listSubscriptions db) db
  /\ StronglySorted Inv.not_older (Db.listSubscriptions db).
Proof.
  unfold Db.listSubscriptions. induction db as [|row db [IHp IHs]]; simpl.
  - split; constructor.
  - split.
    + rewrite insert_desc_perm. constructor. exact IHp.
    + apply insert_desc_sorted, IHs.
Qed.

Lemma insert_desc_set_cursor i observationId lastNotifiedAt row sorted :
  Db.insert_desc
    (if Db.id row =? i then Db.set_cursor observationId lastNotifiedAt row else row)
    (Db.update_where_id i observationId lastNotifiedAt sorted)
  = Db.update_where_id i observationId lastNotifiedAt (Db.insert_desc row sorted).
Proof.
  unfold Db.update_where_id.
  induction sorted as [|r rest IH]; simpl; [reflexivity|].
  replace (Db.createdAt (if Db.id row =? i
                         then Db.set_cursor observationId lastNotifiedAt row else row))
    with (Db.createdAt row) by (destruct (Db.id row =? i); reflexivity).
  replace (Db.createdAt (if Db.id r =? i
                         then Db.set_cursor observationId lastNotifiedAt r else r))
    with (Db.createdAt r) by (destruct (Db.id r =? i); reflexivity).
  destruct (String.ltb (Db.createdAt row) (Db.createdAt r)); simpl.
  - f_equal. exact IH.
  - reflexivity.
Qed.

(** X2.  A cursor write does not reorder the listing: listing after the
    write gives the rows of the listing before it, in the same order, with
    the cursor written on the rows of that id. *)
Theorem listing_after_cursor_write i observationId lastNotifiedAt (db : Db.Table) :
  Db.listSubscriptions (Db.update_where_id i observationId lastNotifiedAt db)
  = Db.update_where_id i observationId lastNotifiedAt (Db.listSubscriptions db).
Proof.
  unfold Db.listSubscriptions. induction db as [|row db IH]; [reflexivity|].
  cbn [Db.update_where_id List.map fold_right].
  change (List.map _ db) with (Db.update_where_id i observationId lastNotifiedAt db).
  rewrite IH. apply insert_desc_set_cursor.
Qed.

End Listing_facts.

(** ** Creating, deleting and looking up rows ([db.js]) *)

Section Store_facts.

Variable toISOString : Z -> string.

Local Abbreviation createSubscription := (Db.createSubscription toISOString).

Lemma largest_rowid_ge (db : Db.Table) row :
  In row db -> Db.id row <= Db.largest_rowid db.
Proof.
  induction db as [|r db IH]; simpl; [tauto|].
  intros [->|Hin]; [lia|]. specialize (IH Hin). lia.
Qed.

Lemma lookup_absent (db : Db.Table) i :
  (forall row, In row db -> Db.id row <> i) -> Db.getSubscriptionById db i = None.
Proof.
  unfold Db.getSubscriptionById. induction db as [|r db IH]; intros H; simpl; [reflexivity|].
  destruct (Db.id r =? i) eqn:E.
  - apply Z.eqb_eq in E. destruct (H r); [left; reflexivity|exact E].
  - apply IH. intros row Hin. apply H. right. exact Hin.
Qed.

Lemma lookup_present (db : Db.Table) i row :
  Db.getSubscriptionById db i = Some row -> In row db /\ Db.id row = i.
Proof.
  unfold Db.getSubscriptionById. intros H. apply find_some in H.
  destruct H as [Hin E]. apply Z.eqb_eq in E. auto.
Qed.

Lemma lookup_app_new (db : Db.Table) row :
  (forall old, In old db -> Db.id old <> Db.id row) ->
  Db.getSubscriptionById (db ++ [row])%list (Db.id row) = Some row.
Proof.
  unfold Db.getSubscriptionById. induction db as [|r db IH]; intros H; simpl.
  - rewrite Z.eqb_refl. reflexivity.
  - destruct (Db.id r =? Db.id row) eqn:E.
    + apply Z.eqb_eq in E. destruct (H r); [left; reflexivity|exact E].
    + apply IH. intros old Hin. apply H. right. exact Hin.
Qed.

Lemma next_rowid_Some db :
  Z.max (Db.sequence db) (Db.largest_rowid (Db.rows db)) < Db.rowid_limit ->
  Db.next_rowid db
  = Some (Z.max (Db.sequence db) (Db.largest_rowid (Db.rows db)) + 1).
Proof.
  intros H. unfold Db.next_rowid. apply Z.ltb_lt in H. rewrite H. reflexivity.
Qed.

Lemma largest_rowid_nonneg (db : Db.Table) : 0 <= Db.largest_rowid db.
Proof. induction db; simpl; lia. Qed.

Lemma largest_rowid_le (db : Db.Table) m :
  0 <= m -> Forall (fun row => 1 <= Db.id row <= m) db -> Db.largest_rowid db <= m.
Proof.
  intros Hm. induction 1 as [|row db Hrow _ IH]; simpl; lia.
Qed.

Lemma js_number_safe n : 0 <= n <= Db.safe_limit -> Db.js_number n = n.
Proof.
  intros H. unfold Db.js_number. rewrite Z.abs_eq by lia.
  destruct (Z.leb_spec n Db.safe_limit); [reflexivity|lia].
Qed.

Lemma safe_below_limit : Db.safe_limit < Db.rowid_limit.
Proof. reflexivity. Qed.

(** X3.  While the ids the table has held are below 2^53 (so that the
    new rowid is still an exact JS number), [createSubscription] appends
    one row and returns that very row as read back by its id: it carries
    the given columns, the creation time of the clock and an unset cursor,
    and its id is larger than every id in the table and than every id the
    table has held. *)
Theorem createSubscription_reads_back now input db :
  Z.max (Db.sequence db) (Db.largest_rowid (Db.rows db)) < Db.safe_limit ->
  exists row,
    createSubscription now input db
    = Return (Some row, Db.mkDatabase (Db.rows db ++ [row])%list (Db.id row))
    /\ row = Db.mkSubscription (Db.id row) (Db.Input.phone input)
               (Db.Input.speciesCode input) (Db.Input.speciesCommonName input)
               (Db.Input.locationLabel input) (Db.Input.latitude input)
               (Db.Input.longitude input) (Db.Input.radiusMiles input)
               (Db.Input.lookBackDays input) (toISOString now) None None
    /\ Db.getSubscriptionById (Db.rows db ++ [row])%list (Db.id row) = Some row
    /\ Db.sequence db < Db.id row
    /\ (forall old, In old (Db.rows db) -> Db.id old < Db.id row).
Proof.
  intros Hsafe. unfold Db.createSubscription.
  rewrite next_rowid_Some by (pose proof safe_below_limit; lia).
  set (i := Z.max (Db.sequence db) (Db.largest_rowid (Db.rows db)) + 1).
  set (row := Db.mkSubscription i _ _ _ _ _ _ _ _ _ None None).
  assert (Hnum : Db.js_number i = i).
  { apply js_number_safe. pose proof (largest_rowid_nonneg (Db.rows db)).
    unfold i. lia. }
  assert (Hfresh : forall old, In old (Db.rows db) -> Db.id old < i).
  { intros old Hin. apply largest_rowid_ge in Hin. unfold i. lia. }
  assert (Hget : Db.getSubscriptionById (Db.rows db ++ [row])%list i = Some row).
  { apply (lookup_app_new (Db.rows db) row). intros old Hin.
    specialize (Hfresh old Hin). simpl. lia. }
  exists row. cbv zeta. simpl Db.rows. rewrite Hnum, Hget.
  repeat split; try reflexivity; try assumption. simpl. unfold i. lia.
Qed.

Lemma delete_keeps (db : Db.Table) i row :
  In row (Db.deleteSubscription db i) <-> In row db /\ Db.id row <> i.
Proof using Type.
  unfold Db.deleteSubscription. rewrite filter_In, negb_true_iff, Z.eqb_neq.
  reflexivity.
Qed.

Lemma map_id_delete (db : Db.Table) i :
  List.map Db.id (Db.deleteSubscription db i)
  = List.filter (fun j => negb (j =? i)) (List.map Db.id db).
Proof.
  unfold Db.deleteSubscription. induction db as [|r db IH]; simpl; [reflexivity|].
  destruct (Db.id r =? i); simpl; rewrite IH; reflexivity.
Qed.

Lemma NoDup_list_filter {A} (f : A -> bool) (l : list A) :
  NoDup l -> NoDup (List.filter f l).
Proof.
  induction 1 as [|x l Hx Hl IH]; simpl; [constructor|].
  destruct (f x); [|exact IH]. constructor; [|exact IH].
  rewrite list_elem_of_In, filter_In. rewrite list_elem_of_In in Hx. tauto.
Qed.

Lemma map_id_update i observationId lastNotifiedAt (db : Db.Table) :
  List.map Db.id (Db.update_where_id i observationId lastNotifiedAt db)
  = List.map Db.id db.
Proof.
  unfold Db.update_where_id. rewrite List.map_map. apply List.map_ext.
  intros row. destruct (Db.id row =? i); reflexivity.
Qed.

(** X4.  The primary key is kept by every statement of [db.js]: if the
    ids of the table are positive, recorded in [sqlite_sequence] and
    pairwise distinct, they still are after an insert, after a delete and
    after a cursor write. *)
Theorem primary_key_is_kept db :
  Inv.well_formed db ->
  (forall now input created db',
     createSubscription now input db = Return (created, db') -> Inv.well_formed db')
  /\ (forall i, Inv.well_formed (Db.delete_row db i))
  /\ (forall i observationId lastNotifiedAt,
       Inv.well_formed
         (Db.mkDatabase
            (Db.update_where_id i observationId lastNotifiedAt (Db.rows db))
            (Db.sequence db))).
Proof.
  intros [Hrange Hdup]. split; [|split].
  - intros now input created db'. unfold Db.createSubscription, Db.next_rowid.
    destruct (_ <? Db.rowid_limit); [|discriminate].
    intros [= _ <-]. unfold Inv.well_formed. simpl.
    set (i := Z.max (Db.sequence db) (Db.largest_rowid (Db.rows db)) + 1).
    assert (Hseq : 0 <= Db.sequence db \/ Db.rows db = []).
    { destruct (Db.rows db) as [|r l]; [auto|]. left.
      apply Forall_cons in Hrange. lia. }
    assert (Hbig : forall old, In old (Db.rows db) -> Db.id old < i).
    { intros old Hin. apply largest_rowid_ge in Hin. unfold i. lia. }
    split.
    + apply Forall_app. split.
      * eapply Forall_impl; [exact Hrange|]. simpl. intros row ?. unfold i. lia.
      * constructor; [|constructor]. simpl.
        assert (0 <= Db.largest_rowid (Db.rows db)).
        { clear. induction (Db.rows db); simpl; lia. }
        unfold i. lia.
    + rewrite List.map_app. simpl. apply NoDup_app. split; [exact Hdup|]. split.
      * intros j Hj Hk. apply list_elem_of_In in Hj. apply list_elem_of_In in Hk.
        destruct Hk as [<-|[]]. apply in_map_iff in Hj. destruct Hj as (old & Hid & Hin).
        specialize (Hbig old Hin). lia.
      * apply NoDup_singleton.
  - intros i. unfold Inv.well_formed, Db.delete_row. simpl. split.
    + apply Forall_forall. intros row Hin%list_elem_of_In%delete_keeps.
      rewrite Forall_forall in Hrange. apply Hrange, list_elem_of_In, Hin.
    + rewrite map_id_delete. apply NoDup_list_filter, Hdup.
  - intros i o t. unfold Inv.well_formed. simpl. split.
    + unfold Db.update_where_id. apply Forall_map.
      eapply Forall_impl; [exact Hrange|]. intros row H. simpl.
      destruct (Db.id row =? i); exact H.
    + rewrite map_id_update. exact Hdup.
Qed.

(** X5.  AUTOINCREMENT never hands out the id of a deleted row again: a
    subscription created after a delete gets another id, so the deleted id
    stays absent and a late cursor write addressed to it changes no row.
    The row handed back to the caller is the new one while the ids are
    below 2^53. *)
Theorem deleted_id_is_never_reused now input db i old created db' :
  Inv.well_formed db ->
  Db.sequence db < Db.safe_limit ->
  Db.getSubscriptionById (Db.rows db) i = Some old ->
  createSubscription now input (Db.delete_row db i) = Return (created, db') ->
  Db.getSubscriptionById (Db.rows db') i = None
  /\ (exists row, created = Some row /\ Db.id row <> i
                  /\ Db.rows db' = (Db.deleteSubscription (Db.rows db) i ++ [row])%list)
  /\ forall observationId lastNotifiedAt,
       Db.update_where_id i observationId lastNotifiedAt (Db.rows db') = Db.rows db'.
Proof.
  intros [Hrange _] Hsafe Hold. apply lookup_present in Hold. destruct Hold as [Hin Hid].
  pose proof Hrange as Hall.
  rewrite Forall_forall in Hrange. apply list_elem_of_In, Hrange in Hin.
  assert (Hlargest : Db.largest_rowid (Db.deleteSubscription (Db.rows db) i)
                     <= Db.sequence db).
  { apply largest_rowid_le; [lia|]. apply Forall_forall.
    intros r Hr. apply Hrange. apply list_elem_of_In in Hr. apply delete_keeps in Hr.
    apply list_elem_of_In. tauto. }
  unfold Db.createSubscription, Db.next_rowid.
  destruct (_ <? Db.rowid_limit); [|discriminate].
  cbv zeta. simpl Db.rows. simpl Db.sequence.
  set (j := Z.max (Db.sequence db) (Db.largest_rowid (Db.deleteSubscription (Db.rows db) i)) + 1).
  set (row := Db.mkSubscription j _ _ _ _ _ _ _ _ _ None None).
  assert (Hj : i < j) by (unfold j; lia).
  assert (Hnum : Db.js_number j = j) by (apply js_number_safe; unfold j; lia).
  assert (Hget : Db.getSubscriptionById (Db.deleteSubscription (Db.rows db) i ++ [row])%list j
                 = Some row).
  { apply (lookup_app_new _ row). intros r Hr.
    apply largest_rowid_ge in Hr. simpl. unfold j. lia. }
  rewrite Hnum, Hget. intros [= <- <-]. simpl Db.rows.
  assert (Habsent : Db.getSubscriptionById
                      (Db.deleteSubscription (Db.rows db) i ++ [row])%list i = None).
  { apply lookup_absent. intros r Hr. apply in_app_iff in Hr.
    destruct Hr as [Hr|[<-|[]]].
    - apply delete_keeps in Hr. tauto.
    - simpl. lia. }
  split; [exact Habsent|]. split.
  - exists row. split; [reflexivity|]. split; [simpl; lia|reflexivity].
  - intros o t. apply update_absent, Habsent.
Qed.

(** X6.  After [deleteSubscription(i)] the id [i] is absent and every
    other id reads back the row it had; deleting an id that is absent
    leaves the table as it is. *)
Theorem lookup_after_delete (db : Db.Table) i :
  (forall j, Db.getSubscriptionById (Db.deleteSubscription db i) j
             = if j =? i then None else Db.getSubscriptionById db j)
  /\ (Db.getSubscriptionById db i = None -> Db.deleteSubscription db i = db).
Proof.
  unfold Db.getSubscriptionById, Db.deleteSubscription. split.
  - intros j. induction db as [|r db IH]; simpl.
    + destruct (j =? i); reflexivity.
    + destruct (Db.id r =? i) eqn:Ei; simpl.
      * rewrite IH. destruct (j =? i) eqn:Ej; [reflexivity|].
        apply Z.eqb_eq in Ei. apply Z.eqb_neq in Ej.
        destruct (Db.id r =? j) eqn:E; [apply Z.eqb_eq in E; lia|reflexivity].
      * destruct (Db.id r =? j) eqn:E.
        -- apply Z.eqb_eq in E. apply Z.eqb_neq in Ei.
           destruct (j =? i) eqn:Ej; [apply Z.eqb_eq in Ej; lia|reflexivity].
        -- exact IH.
  - induction db as [|r db IH]; simpl; [reflexivity|].
    destruct (Db.id r =? i); simpl; [discriminate|].
    intros H. rewrite (IH H). reflexivity.
Qed.

(** X7.  After a cursor write for [i], reading [i] gives the row it had
    with both cursor columns set to the written values, and every other id
    reads back the row it had. *)
Theorem lookup_after_cursor_write (db : Db.Table) i observationId lastNotifiedAt j :
  Db.getSubscriptionById (Db.update_where_id i observationId lastNotifiedAt db) j
  = if j =? i
    then Db.set_cursor observationId lastNotifiedAt <$> Db.getSubscriptionById db i
    else Db.getSubscriptionById db j.
Proof.
  unfold Db.getSubscriptionById, Db.update_where_id.
  induction db as [|r db IH]; simpl.
  - destruct (j =? i); reflexivity.
  - replace (Db.id (if Db.id r =? i
                    then Db.set_cursor observationId lastNotifiedAt r else r))
      with (Db.id r) by (destruct (Db.id r =? i); reflexivity).
    destruct (Db.id r =? j) eqn:Ej.
    + apply Z.eqb_eq in Ej. subst j.
      destruct (Db.id r =? i) eqn:Ei; reflexivity.
    + rewrite IH. destruct (j =? i) eqn:Eji; [|reflexivity].
      apply Z.eqb_eq in Eji. subst j. rewrite Ej. reflexivity.
Qed.

(** X8.  Cursor writes compose as assignments: of two writes to the same
    id the later one wins, and writes to different ids can be swapped. *)
Theorem cursor_writes_compose (db : Db.Table) i j a s b t :
  Db.update_where_id i a s (Db.update_where_id i b t db) = Db.update_where_id i a s db
  /\ (i <> j ->
      Db.update_where_id i a s (Db.update_where_id j b t db)
      = Db.update_where_id j b t (Db.update_where_id i a s db)).
Proof.
  unfold Db.update_where_id. rewrite !List.map_map. split.
  - apply List.map_ext. intros row.
    destruct (Db.id row =? i) eqn:E; simpl; rewrite ?E; reflexivity.
  - intros Hij. apply List.map_ext. intros row.
    destruct (Db.id row =? i) eqn:Ei; destruct (Db.id row =? j) eqn:Ej;
      simpl; rewrite ?Ei, ?Ej; try reflexivity.
    apply Z.eqb_eq in Ei. apply Z.eqb_eq in Ej. congruence.
Qed.

End Store_facts.

(** ** The management API ([index.js]) *)

Section Server_facts.

Variable toISOString : Z -> string.
Variable parseInt : string -> option Z.

Local Abbreviation post_subscriptions := (Server.post_subscriptions toISOString).
Local Abbreviation delete_subscription := (Server.delete_subscription parseInt).

Lemma phone_field_Some v s :
  Server.phone_field v = Some s ->
  v = Some (Server.JString s)
  /\ (5 <= String.length s <= 20)%nat /\ Server.phone_pattern s = true.
Proof.
  unfold Server.phone_field. destruct v as [[]|]; try discriminate.
  destruct (_ && _) eqn:E; [|discriminate]. intros [= <-].
  apply andb_true_iff in E. destruct E as [E Hp].
  apply andb_true_iff in E. destruct E as [Hlo Hhi].
  apply Nat.leb_le in Hlo. apply Nat.leb_le in Hhi. auto.
Qed.

Lemma text_field_Some v s :
  Server.text_field v = Some s -> (2 <= String.length s)%nat.
Proof.
  unfold Server.text_field. destruct v as [[]|]; try discriminate.
  destruct (_ <=? _)%nat eqn:E; [|discriminate]. intros [= <-].
  apply Nat.leb_le in E. exact E.
Qed.

Lemma number_field_Some lo hi v q :
  Server.number_field lo hi v = Some q -> (lo <= q <= hi)%Q.
Proof.
  unfold Server.number_field. destruct v as [[]|]; try discriminate.
  destruct (_ && _) eqn:E; [|discriminate]. intros [= <-].
  apply andb_true_iff in E. destruct E as [Hlo Hhi].
  apply Qle_bool_iff in Hlo. apply Qle_bool_iff in Hhi. auto.
Qed.

Lemma count_field_Some hi v n :
  Server.count_field hi v = Some n -> 1 <= n <= hi.
Proof.
  unfold Server.count_field. destruct v as [[]|]; try discriminate.
  destruct (_ && _) eqn:E; [|discriminate]. intros [= <-].
  apply andb_true_iff in E. destruct E as [E Hhi].
  apply andb_true_iff in E. destruct E as [_ Hlo].
  apply Z.ltb_lt in Hlo. apply Z.leb_le in Hhi. lia.
Qed.

Lemma with_default_Some hi v n :
  Server.with_default 3 (Server.count_field hi) v = Some n ->
  (v = None /\ n = 3) \/ (v <> None /\ 1 <= n <= hi).
Proof.
  unfold Server.with_default. destruct v as [j|].
  - intros H. right. split; [discriminate|]. eapply count_field_Some, H.
  - intros [= <-]. left. auto.
Qed.

Lemma safeParse_fields body data :
  Server.safeParse body = Some data ->
  exists fields,
    body = Server.JObject fields
    /\ Server.phone_field (Server.property fields "phone")
       = Some (Db.Input.phone data)
    /\ Server.text_field (Server.property fields "speciesCode")
       = Some (Db.Input.speciesCode data)
    /\ Server.text_field (Server.property fields "speciesCommonName")
       = Some (Db.Input.speciesCommonName data)
    /\ Server.text_field (Server.property fields "locationLabel")
       = Some (Db.Input.locationLabel data)
    /\ Server.number_field (-90) 90 (Server.property fields "latitude")
       = Some (Db.Input.latitude data)
    /\ Server.number_field (-180) 180 (Server.property fields "longitude")
       = Some (Db.Input.longitude data)
    /\ Server.count_field 200 (Server.property fields "radiusMiles")
       = Some (Db.Input.radiusMiles data)
    /\ Server.with_default 3 (Server.count_field 30)
         (Server.property fields "lookBackDays")
       = Some (Db.Input.lookBackDays data).
Proof.
  unfold Server.safeParse. destruct body as [| | | | | |fields]; try discriminate.
  intros H. exists fields. split; [reflexivity|].
  destruct (Server.phone_field _); [|discriminate].
  destruct (Server.text_field (Server.property fields "speciesCode")); [|discriminate].
  destruct (Server.text_field (Server.property fields "speciesCommonName")); [|discriminate].
  destruct (Server.text_field (Server.property fields "locationLabel")); [|discriminate].
  destruct (Server.number_field (-90) 90 _); [|discriminate].
  destruct (Server.number_field (-180) 180 _); [|discriminate].
  destruct (Server.count_field 200 _); [|discriminate].
  destruct (Server.with_default 3 _ _); [|discriminate].
  simpl in H. injection H as <-. simpl. auto 10.
Qed.

Lemma safeParse_valid body data :
  Server.safeParse body = Some data -> Inv.valid_input data.
Proof.
  intros H. apply safeParse_fields in H.
  destruct H as (fields & _ & Hp & Hc & Hn & Hl & Hlat & Hlng & Hr & Hb).
  apply phone_field_Some in Hp. apply text_field_Some in Hc, Hn, Hl.
  apply number_field_Some in Hlat, Hlng. apply count_field_Some in Hr.
  apply with_default_Some in Hb.
  unfold Inv.valid_input, Inv.in_bounds. intuition lia.
Qed.

Lemma createSubscription_inv now input db created db' :
  Z.max (Db.sequence db) (Db.largest_rowid (Db.rows db)) < Db.safe_limit ->
  Db.createSubscription toISOString now input db = Return (created, db') ->
  exists row,
    created = Some row
    /\ db' = Db.mkDatabase (Db.rows db ++ [row])%list (Db.id row)
    /\ row = Db.mkSubscription (Db.id row) (Db.Input.phone input)
               (Db.Input.speciesCode input) (Db.Input.speciesCommonName input)
               (Db.Input.locationLabel input) (Db.Input.latitude input)
               (Db.Input.longitude input) (Db.Input.radiusMiles input)
               (Db.Input.lookBackDays input) (toISOString now) None None.
Proof.
  intros Hsafe. unfold Db.createSubscription, Db.next_rowid.
  destruct (_ <? Db.rowid_limit); [|discriminate]. cbv zeta. simpl Db.rows.
  set (i := Z.max (Db.sequence db) (Db.largest_rowid (Db.rows db)) + 1).
  set (row := Db.mkSubscription i _ _ _ _ _ _ _ _ _ None None).
  assert (Hnum : Db.js_number i = i).
  { apply js_number_safe. pose proof (largest_rowid_nonneg (Db.rows db)).
    unfold i. lia. }
  assert (Hget : Db.getSubscriptionById (Db.rows db ++ [row])%list i = Some row).
  { apply (lookup_app_new (Db.rows db) row). intros old Hin.
    apply largest_rowid_ge in Hin. simpl. unfold i. lia. }
  rewrite Hnum, Hget. intros [= <- <-]. exists row. auto.
Qed.

(** X9.  While the ids the table has held are below 2^53,
    [POST /api/subscriptions] either rejects the body with status 400 and
    leaves the database as it is, or answers 201 with the row it appended,
    whose columns are within the bounds of the schema and whose cursor is
    unset.  If every row was within the bounds before the request, every
    row is afterwards. *)
Theorem post_keeps_rows_valid now body db reply db' :
  Z.max (Db.sequence db) (Db.largest_rowid (Db.rows db)) < Db.safe_limit ->
  Forall Inv.valid_row (Db.rows db) ->
  post_subscriptions now body db = Return (reply, db') ->
  Forall Inv.valid_row (Db.rows db')
  /\ ((Server.safeParse body = None
       /\ reply = Server.mkReply 400 (Server.Failure "Invalid subscription payload")
       /\ db' = db)
      \/ (exists row,
            reply = Server.mkReply 201 (Server.Created (Some row))
            /\ Db.rows db' = (Db.rows db ++ [row])%list
            /\ Inv.valid_row row
            /\ Db.lastObservationId row = None
            /\ Db.lastNotifiedAt row = None)).
Proof.
  intros Hsafe Hvalid. unfold Server.post_subscriptions.
  destruct (Server.safeParse body) as [data|] eqn:Hparse.
  - destruct (Db.createSubscription toISOString now data db) as [[created db'']|e] eqn:Hc;
      [|discriminate].
    intros [= <- <-]. apply createSubscription_inv in Hc; [|exact Hsafe].
    destruct Hc as (row & -> & -> & Hrow). apply safeParse_valid in Hparse.
    assert (Hv : Inv.valid_row row) by (rewrite Hrow; exact Hparse).
    split.
    + simpl. apply Forall_app. split; [exact Hvalid|]. constructor; [exact Hv|constructor].
    + right. exists row. simpl. rewrite Hrow. simpl. auto 10.
  - intros [= <- <-]. split; [exact Hvalid|]. left. auto.
Qed.

(** X10.  A body without the key [lookBackDays] is stored with a
    look-back of 3 days; the key given as [null] is rejected. *)
Theorem lookBackDays_defaults_to_3 fields :
  (Server.property fields "lookBackDays" = None ->
   forall data, Server.safeParse (Server.JObject fields) = Some data ->
                Db.Input.lookBackDays data = 3)
  /\ (Server.property fields "lookBackDays" = Some Server.JNull ->
      Server.safeParse (Server.JObject fields) = None).
Proof.
  split.
  - intros Hmissing data H. apply safeParse_fields in H.
    destruct H as (fields' & [= <-] & _ & _ & _ & _ & _ & _ & _ & Hb).
    rewrite Hmissing in Hb. simpl in Hb. congruence.
  - intros Hnull. destruct (Server.safeParse _) as [data|] eqn:H; [|reflexivity].
    apply safeParse_fields in H.
    destruct H as (fields' & [= <-] & _ & _ & _ & _ & _ & _ & _ & Hb).
    rewrite Hnull in Hb. discriminate.
Qed.

Lemma listed_rows (db : Db.Table) :
  Permutation (Db.listSubscriptions db) db.
Proof.
  unfold Db.listSubscriptions. induction db as [|row db IH]; simpl; [constructor|].
  rewrite insert_desc_perm. constructor. exact IH.
Qed.

(** X11.  [DELETE /api/subscriptions/:id] answers 400 and changes nothing
    when the parameter is not a number; otherwise it answers 204 whether
    or not a row had that id, the id is absent afterwards and no longer
    listed, and repeating the request gives the same answer and the same
    database. *)
Theorem delete_route_is_idempotent param db :
  (parseInt param = None ->
   delete_subscription param db
   = (Server.mkReply 400 (Server.Failure "Invalid id parameter"), db))
  /\ (forall i, parseInt param = Some i ->
       fst (delete_subscription param db) = Server.mkReply 204 Server.NoContent
       /\ Db.getSubscriptionById (Db.rows (snd (delete_subscription param db))) i = None
       /\ (forall row,
             In row (Db.listSubscriptions (Db.rows (snd (delete_subscription param db)))) ->
             Db.id row <> i))
  /\ delete_subscription param (snd (delete_subscription param db))
     = delete_subscription param db.
Proof using parseInt.
  unfold Server.delete_subscription. destruct (parseInt param) as [i|] eqn:Hparse.
  - split; [discriminate|]. split.
    + intros j [= <-]. simpl. split; [reflexivity|]. split; [apply deleted_is_absent|].
      intros row Hin. apply (Permutation_in _ (listed_rows _)) in Hin.
      apply delete_keeps in Hin. destruct Hin as [_ Hne]. exact Hne.
    + simpl. unfold Db.delete_row. simpl. f_equal. f_equal.
      unfold Db.deleteSubscription. induction (Db.rows db) as [|r l IH]; simpl; [reflexivity|].
      destruct (Db.id r =? i) eqn:E; simpl; [exact IH|]. rewrite E. simpl. f_equal. exact IH.
  - split; [reflexivity|]. split; [discriminate|]. reflexivity.
Qed.

End Server_facts.

(** ** What a cycle does to the world ([notifier.js]) *)

Section Cycle_accounting.

Variable Date_parse : string -> option Z.
Variable toISOString : Z -> string.

Local Abbreviation processSubscription := (processSubscription Date_parse toISOString).
Local Abbreviation notify := (notify toISOString).
Local Abbreviation advanced := (advanced toISOString).
Local Abbreviation iteration := (iteration Date_parse toISOString).
Local Abbreviation for_of := (for_of Date_parse toISOString).
Local Abbreviation execute := (execute Date_parse toISOString).
Local Abbreviation startNotifier := (startNotifier Date_parse toISOString).
Local Abbreviation own_write := (own_write Date_parse toISOString).
Local Abbreviation failure_lines := (Inv.failure_lines Date_parse toISOString).

Lemma notify_effects cfg env subscription primary others w :
  console (snd (notify cfg env subscription primary others w)) = console w
  /\ (sms (snd (notify cfg env subscription primary others w)) = sms w
      \/ sms (snd (notify cfg env subscription primary others w))
         = (sms w ++ [alert cfg subscription primary others])%list).
Proof.
  rewrite notify_unfold.
  destruct (twilioClient cfg && truthy_string (twilioFromNumber cfg)); cbv zeta.
  - destruct (messages_create env _); [simpl; auto|].
    rewrite commit_unfold. destruct (run_fault env _); simpl; auto.
  - rewrite commit_unfold. destruct (run_fault env _); simpl; auto.
Qed.

Lemma process_effects cfg env subscription w :
  console (snd (processSubscription cfg env subscription w)) = console w
  /\ (sms (snd (processSubscription cfg env subscription w)) = sms w
      \/ exists primary others,
           sms (snd (processSubscription cfg env subscription w))
           = (sms w ++ [alert cfg subscription primary others])%list).
Proof.
  rewrite process_unfold.
  destruct (fetch_for cfg env subscription) as [feed|e]; [|simpl; auto].
  destruct (dedup Date_parse subscription feed) as [o|primary others]; [simpl; auto|].
  destruct (throttled _ _ _ _); [simpl; auto|].
  destruct (notify_effects cfg env subscription primary others w) as [Hc [Hs|Hs]];
    split; eauto.
Qed.

Lemma iteration_sms cfg env subscription w :
  sms (snd (iteration cfg env subscription w))
  = sms (snd (processSubscription cfg env subscription w)).
Proof.
  rewrite iteration_unfold.
  destruct (processSubscription cfg env subscription w) as [[o|e] w']; reflexivity.
Qed.

Lemma for_of_sms cfg env subscriptions w :
  exists batches,
    sms (snd (for_of cfg env subscriptions w)) = (sms w ++ concat batches)%list
    /\ Forall2
         (fun row batch =>
            batch = []
            \/ exists primary (others : list Ebird.Observation),
                 batch = [mkSms (alertMessage row primary (Z.of_nat (length others)))
                            (twilioFromNumber cfg) (Db.phone row)])
         subscriptions batches.
Proof.
  revert w. induction subscriptions as [|s l IH]; intros w.
  - exists []. simpl. rewrite app_nil_r. split; [reflexivity|constructor].
  - rewrite for_of_cons.
    destruct (IH (snd (iteration cfg env s w))) as (batches & Hsent & Hall).
    rewrite Hsent, iteration_sms.
    destruct (process_effects cfg env s w) as [_ [Hs|(p & o & Hs)]]; rewrite Hs.
    + exists ([] :: batches). split; [reflexivity|]. constructor; [left; reflexivity|exact Hall].
    + exists ([alert cfg s p o] :: batches). simpl. rewrite <- app_assoc.
      split; [reflexivity|]. constructor; [|exact Hall].
      right. exists p, o. reflexivity.
Qed.

(** X12.  A cycle hands the gateway at most one message per subscription,
    whatever the size of the batches.  The requests it adds are, for the
    subscriptions in listing order, nothing or exactly one message each:
    that subscription's alert, sent from the configured number to that
    subscription's phone. *)
Theorem one_alert_per_subscription cfg env w :
  exists batches,
    sms (snd (execute cfg env w)) = (sms w ++ concat batches)%list
    /\ Forall2
         (fun row batch =>
            batch = []
            \/ exists primary (others : list Ebird.Observation),
                 batch = [mkSms (alertMessage row primary (Z.of_nat (length others)))
                            (twilioFromNumber cfg) (Db.phone row)])
         (Db.listSubscriptions (table w)) batches.
Proof. rewrite execute_for_of. apply for_of_sms. Qed.

Lemma same_subscription_refl row : Inv.same_subscription row row.
Proof. unfold Inv.same_subscription. auto 12. Qed.

Lemma same_subscription_write i observationId lastNotifiedAt (db : Db.Table) :
  Forall2 Inv.same_subscription db
    (Db.update_where_id i observationId lastNotifiedAt db).
Proof.
  unfold Db.update_where_id. induction db as [|row db IH]; simpl; constructor;
    [|exact IH].
  destruct (Db.id row =? i); [|apply same_subscription_refl].
  unfold Inv.same_subscription. simpl. auto 12.
Qed.

Lemma same_subscription_chain (a b c : Db.Table) :
  Forall2 Inv.same_subscription a b -> Forall2 Inv.same_subscription b c ->
  Forall2 Inv.same_subscription a c.
Proof.
  intros Hab. revert c. induction Hab as [|x y a b Hxy _ IH]; intros c Hbc.
  - inversion Hbc. constructor.
  - inversion Hbc as [|y' z b' c' Hyz Hrest]; subst. constructor; [|apply IH, Hrest].
    unfold Inv.same_subscription in *. intuition congruence.
Qed.

Lemma own_writes_keep_rows cfg env w subscriptions (db : Db.Table) :
  Forall2 Inv.same_subscription db (fold_left (own_write cfg env w) subscriptions db).
Proof.
  revert db. induction subscriptions as [|s l IH]; intros db; simpl.
  - induction db; constructor; [apply same_subscription_refl|assumption].
  - eapply same_subscription_chain; [|apply IH].
    unfold Notifier.own_write.
    destruct (fst (processSubscription cfg env s w)) as [[]|];
      try (induction db; constructor; [apply same_subscription_refl|assumption]).
    apply same_subscription_write.
Qed.

(** X13.  A cycle neither adds nor removes nor reorders rows, and changes
    no column of a row other than its cursor; in particular rows that were
    within the bounds of the schema still are. *)
Theorem cycle_only_moves_cursors cfg env w :
  Forall2 Inv.same_subscription (table w) (table (snd (execute cfg env w)))
  /\ (Forall Inv.valid_row (table w) ->
      Forall Inv.valid_row (table (snd (execute cfg env w)))).
Proof.
  rewrite execute_for_of, (for_of_table Date_parse toISOString cfg env _ w w).
  pose proof (own_writes_keep_rows cfg env w (Db.listSubscriptions (table w)) (table w))
    as Hsame.
  split; [exact Hsame|]. intros Hvalid.
  induction Hsame as [|row row' db db' Hrow _ IH]; [constructor|].
  apply Forall_cons in Hvalid. destruct Hvalid as [Hv Hrest].
  constructor; [|apply IH, Hrest].
  unfold Inv.valid_row. unfold Inv.same_subscription in Hrow.
  destruct Hrow as (_ & -> & -> & -> & -> & -> & -> & -> & -> & _). exact Hv.
Qed.

(** X14.  An iteration that ends at one of the four [continue] statements
    (no observation, latest already notified, no new sighting, throttled)
    leaves the table, the gateway and the console untouched. *)
Theorem continue_is_silent cfg env subscription w o w' :
  processSubscription cfg env subscription w = (Return o, w') ->
  (forall primary, o <> Committed primary) ->
  w' = w.
Proof.
  rewrite process_unfold.
  destruct (fetch_for cfg env subscription) as [feed|e]; [|discriminate].
  destruct (dedup Date_parse subscription feed) as [o'|primary others];
    [intros [= _ <-]; reflexivity|].
  destruct (throttled _ _ _ _); [intros [= _ <-]; reflexivity|].
  destruct (notify_cases toISOString cfg env subscription primary others w)
    as [(e & w1 & -> & _)|(w1 & -> & _)]; [discriminate|].
  intros [= <- _] H. destruct (H primary). reflexivity.
Qed.

(** X15.  If the alert goes out but the cursor write fails, the message
    has been handed to the gateway and the table is as before; the next
    cycle, on the same snapshot and with the store working again, hands the
    gateway the same message a second time and only then advances the
    cursor. *)
Theorem store_failure_repeats_alert cfg env1 env2 subscription feed primary others
    w e :
  fetch_for cfg env1 subscription = Return feed ->
  fetch_for cfg env2 subscription = Return feed ->
  dedup Date_parse subscription feed = NewSightings primary others ->
  throttled Date_parse (minimumNotificationMinutes cfg) subscription primary = false ->
  twilioClient cfg && truthy_string (twilioFromNumber cfg) = true ->
  messages_create env1 (alert cfg subscription primary others) = None ->
  messages_create env2 (alert cfg subscription primary others) = None ->
  run_fault env1 (Db.id subscription) = Some e ->
  run_fault env2 (Db.id subscription) = None ->
  processSubscription cfg env1 subscription w
  = (Throw e,
     mkWorld (table w) (sms w ++ [alert cfg subscription primary others]) (console w))
  /\ processSubscription cfg env2 subscription
       (snd (iteration cfg env1 subscription w))
     = (Return (Committed primary),
        mkWorld (advanced env2 subscription primary (table w))
          (sms w ++ [alert cfg subscription primary others;
                     alert cfg subscription primary others])
          (console (snd (iteration cfg env1 subscription w)))).
Proof.
  intros Hf1 Hf2 Hdedup Hthr Hon Hs1 Hs2 Hr1 Hr2.
  assert (H1 : processSubscription cfg env1 subscription w
               = (Throw e, mkWorld (table w)
                             (sms w ++ [alert cfg subscription primary others])
                             (console w))).
  { rewrite process_unfold, Hf1, Hdedup, Hthr, notify_unfold, Hon. cbv zeta.
    rewrite Hs1, commit_unfold, Hr1. reflexivity. }
  split; [exact H1|].
  rewrite iteration_unfold, H1. cbv beta iota.
  rewrite process_unfold, Hf2, Hdedup, Hthr, notify_unfold, Hon. cbv zeta.
  rewrite Hs2, commit_unfold, Hr2. simpl. rewrite <- app_assoc. reflexivity.
Qed.

(** X16.  With an unset cursor (the first cycle of a subscription) nothing
    is filtered and nothing is throttled: every observation of the snapshot
    is a candidate and the iteration goes on to dispatch with the first
    observation as the primary sighting and all the others as extras. *)
Theorem unset_cursor_takes_whole_snapshot cfg env subscription latest rest w :
  Db.lastObservationId subscription = None ->
  Db.lastNotifiedAt subscription = None ->
  fetch_for cfg env subscription = Return (Ebird.Observations (latest :: rest)) ->
  candidates Date_parse subscription (latest :: rest) = latest :: rest
  /\ processSubscription cfg env subscription w
     = notify cfg env subscription latest rest w.
Proof.
  intros Hid Hat Hfetch.
  assert (Hall : forall l, newSightings Date_parse subscription l = l).
  { intros l. unfold newSightings. induction l as [|o l IH]; simpl; [reflexivity|].
    unfold isNewSighting at 1. rewrite Hid, Hat. simpl. rewrite IH. reflexivity. }
  assert (Hdedup : dedup Date_parse subscription (Ebird.Observations (latest :: rest))
                   = NewSightings latest rest).
  { unfold dedup. rewrite Hid. cbn [truthy andb]. rewrite Hall. reflexivity. }
  split.
  - unfold candidates. rewrite Hdedup. reflexivity.
  - rewrite process_unfold, Hfetch, Hdedup.
    unfold throttled. rewrite Hat. reflexivity.
Qed.

(** X17.  [startNotifier] throws only while it sets up: with an empty
    eBird key (before anything else happens), when the Twilio constructor
    throws, or when [cron.schedule] throws; in each case no subscription
    has been processed.  When the key is given, the client is constructed
    and the expression is accepted, it returns: whatever goes wrong in the
    startup cycle is logged. *)
Theorem startNotifier_throws_only_in_setup host cfg env w :
  (ebirdApiKey cfg = "" ->
   startNotifier host cfg env w
   = (Throw (mkError "EBIRD_API_KEY is required to start the notifier"), w))
  /\ (ebirdApiKey cfg <> "" ->
      (twilioClient cfg = true ->
       twilio host (twilioAccountSid cfg) (twilioAuthToken cfg) = None) ->
      cron_schedule host (pollIntervalCron cfg) = None ->
      fst (startNotifier host cfg env w) = Return tt)
  /\ (forall e, fst (startNotifier host cfg env w) = Throw e ->
      (ebirdApiKey cfg = ""
       \/ (twilioClient cfg = true
           /\ twilio host (twilioAccountSid cfg) (twilioAuthToken cfg) = Some e)
       \/ cron_schedule host (pollIntervalCron cfg) = Some e)
      /\ table (snd (startNotifier host cfg env w)) = table w
      /\ sms (snd (startNotifier host cfg env w)) = sms w).
Proof.
  destruct (String.eqb_spec (ebirdApiKey cfg) "") as [Hkey|Hkey].
  { unfold Notifier.startNotifier. rewrite Hkey. simpl.
    split; [reflexivity|]. split; [contradiction|]. intros e _. auto. }
  assert (Htruthy : truthy_string (ebirdApiKey cfg) = true).
  { unfold truthy_string.
    destruct (String.eqb_spec (ebirdApiKey cfg) ""); [contradiction|reflexivity]. }
  unfold Notifier.startNotifier. rewrite Htruthy.
  change (negb true) with false. cbv iota.
  split; [contradiction|].
  set (warn := if _ || _ then _ else ret tt).
  assert (Hwarn : exists w1, warn w = (Return tt, w1) /\ table w1 = table w
                             /\ sms w1 = sms w).
  { unfold warn. destruct (_ || _); eexists; (split; [reflexivity|auto]). }
  destruct Hwarn as (w1 & Hwarn & Ht1 & Hs1).
  unfold bind, call, try_catch. cbv beta. rewrite Hwarn.
  destruct (twilioClient cfg) eqn:Hclient.
  - destruct (twilio host (twilioAccountSid cfg) (twilioAuthToken cfg)) as [e1|] eqn:Htw.
    + simpl. split; [intros _ H; specialize (H eq_refl); discriminate|].
      intros e [= <-]. auto.
    + simpl. destruct (cron_schedule host (pollIntervalCron cfg)) as [e2|] eqn:Hcron.
      * simpl. split; [intros _ _ H; discriminate|]. intros e [= <-]. auto.
      * simpl. destruct (execute cfg env w1) as [[[]|e3] w2]; simpl;
          (split; [reflexivity|intros e H; discriminate]).
  - simpl. destruct (cron_schedule host (pollIntervalCron cfg)) as [e2|] eqn:Hcron.
    + simpl. split; [intros _ _ H; discriminate|]. intros e [= <-]. auto.
    + simpl. destruct (execute cfg env w1) as [[[]|e3] w2]; simpl;
        (split; [reflexivity|intros e H; discriminate]).
Qed.

Lemma for_of_console cfg env subscriptions w w' :
  console (snd (for_of cfg env subscriptions w'))
  = (console w' ++ failure_lines cfg env w subscriptions)%list.
Proof.
  revert w'. induction subscriptions as [|s l IH]; intros w'.
  - simpl. rewrite app_nil_r. reflexivity.
  - rewrite for_of_cons, IH, iteration_unfold. unfold Inv.failure_lines. simpl.
    rewrite (outcome_independent Date_parse toISOString cfg env s w w').
    destruct (process_effects cfg env s w') as [Hc _].
    destruct (processSubscription cfg env s w') as [[o|e] w1]; simpl in *.
    + rewrite Hc. reflexivity.
    + rewrite Hc, <- app_assoc. reflexivity.
Qed.


End Cycle_accounting.

(** ** The browser's feed client ([src/lib/ebird.ts]) *)

Section Browser_facts.

Variable getTime : string -> option Z.

Local Abbreviation compareFn := (Ebird.compareFn getTime).
Local Abbreviation insert_sorted := (Ebird.insert_sorted getTime).
Local Abbreviation sort := (Ebird.sort getTime).

Lemma insert_sorted_perm x l : Permutation (insert_sorted x l) (x :: l).
Proof.
  induction l as [|y l IH]; simpl; [reflexivity|].
  destruct (compareFn x y); try reflexivity.
  rewrite IH. apply perm_swap.
Qed.

Lemma sort_perm l : Permutation (sort l) l.
Proof.
  unfold Ebird.sort. induction l as [|x l IH]; simpl; [constructor|].
  rewrite insert_sorted_perm. constructor. exact IH.
Qed.

(** Insertion keeps a list sorted for any order the comparator decides. *)
Lemma insert_sorted_sorted (R : relation Ebird.Observation) (good : Ebird.Observation -> Prop) :
  (forall a b c, R a b -> R b c -> R a c) ->
  (forall a b, good a -> good b -> compareFn a b = Gt -> R b a) ->
  (forall a b, good a -> good b -> compareFn a b <> Gt -> R a b) ->
  forall x l, good x -> Forall good l ->
    StronglySorted R l -> StronglySorted R (insert_sorted x l).
Proof.
  intros Htrans Hgt Hle x l Hx Hgood Hsorted.
  induction Hsorted as [|y l Hl IH Hall]; simpl.
  - constructor; constructor.
  - apply Forall_cons in Hgood. destruct Hgood as [Hy Hgood].
    destruct (compareFn x y) eqn:E.
    + constructor; [constructor; assumption|].
      assert (Rxy : R x y) by (apply Hle; [assumption..|congruence]).
      constructor; [exact Rxy|]. eapply Forall_impl; [exact Hall|].
      intros z Hz. eapply Htrans; eassumption.
    + constructor; [constructor; assumption|].
      assert (Rxy : R x y) by (apply Hle; [assumption..|congruence]).
      constructor; [exact Rxy|]. eapply Forall_impl; [exact Hall|].
      intros z Hz. eapply Htrans; eassumption.
    + constructor; [apply IH, Hgood|].
      rewrite insert_sorted_perm. constructor; [|exact Hall].
      apply Hgt; assumption.
Qed.

Lemma sort_sorted (R : relation Ebird.Observation) (good : Ebird.Observation -> Prop) :
  (forall a b c, R a b -> R b c -> R a c) ->
  (forall a b, good a -> good b -> compareFn a b = Gt -> R b a) ->
  (forall a b, good a -> good b -> compareFn a b <> Gt -> R a b) ->
  forall l, Forall good l -> StronglySorted R (sort l).
Proof.
  intros Htrans Hgt Hle l Hgood. unfold Ebird.sort.
  induction Hgood as [|x l Hx Hl IH]; simpl; [constructor|].
  apply (insert_sorted_sorted R good); try assumption.
  change (fold_right (Ebird.insert_sorted getTime) [] l) with (sort l).
  rewrite sort_perm. exact Hl.
Qed.

Lemma fetch_browser_ok fetch speciesCode latitude longitude radiusMiles lookBackDays
    apiKey response observations :
  apiKey <> "" ->
  fetch (Ebird.mkRequest speciesCode latitude longitude radiusMiles lookBackDays
           None apiKey) = Ebird.Resolved response ->
  Ebird.ok response = true ->
  Ebird.json response = Ebird.Array observations ->
  Ebird.fetchRecentObservations_browser getTime fetch speciesCode latitude longitude
    radiusMiles lookBackDays apiKey = Return (sort observations).
Proof.
  intros Hkey Hfetch Hok Hjson. unfold Ebird.fetchRecentObservations_browser.
  unfold truthy_string. destruct (String.eqb_spec apiKey ""); [contradiction|].
  simpl. rewrite Hfetch, Hok, Hjson. reflexivity.
Qed.

(** X19.  On a successful response the browser's client returns the
    observations of the response, each exactly once; when every
    observation carries a distance they come nearest first. *)
Theorem browser_feed_nearest_first fetch speciesCode latitude longitude radiusMiles
    lookBackDays apiKey response observations :
  apiKey <> "" ->
  fetch (Ebird.mkRequest speciesCode latitude longitude radiusMiles lookBackDays
           None apiKey) = Ebird.Resolved response ->
  Ebird.ok response = true ->
  Ebird.json response = Ebird.Array observations ->
  exists sorted,
    Ebird.fetchRecentObservations_browser getTime fetch speciesCode latitude longitude
      radiusMiles lookBackDays apiKey = Return sorted
    /\ Permutation sorted observations
    /\ (Forall (fun o => Ebird.distance o <> None) observations ->
        StronglySorted Inv.closer sorted).
Proof.
  intros Hkey Hfetch Hok Hjson. exists (sort observations).
  split; [eapply fetch_browser_ok; eassumption|].
  split; [apply sort_perm|]. intros Hdist.
  apply (sort_sorted Inv.closer (fun o => Ebird.distance o <> None)); [| | |exact Hdist].
  - intros a b c. unfold Inv.closer.
    destruct (Ebird.distance a), (Ebird.distance b), (Ebird.distance c); try tauto.
    apply Qle_trans.
  - intros a b Ha Hb. unfold Ebird.compareFn, Inv.closer.
    destruct (Ebird.distance a), (Ebird.distance b); try congruence.
    intros H. apply Qgt_alt in H. apply Qlt_le_weak, H.
  - intros a b Ha Hb. unfold Ebird.compareFn, Inv.closer.
    destruct (Ebird.distance a), (Ebird.distance b); try congruence.
    intros H. apply Qle_alt, H.
Qed.

(** X20.  When no observation of a successful response carries a distance
    and every observed-at time parses, the browser's client returns them
    most recent first. *)
Theorem browser_feed_most_recent_first fetch speciesCode latitude longitude
    radiusMiles lookBackDays apiKey response observations :
  apiKey <> "" ->
  fetch (Ebird.mkRequest speciesCode latitude longitude radiusMiles lookBackDays
           None apiKey) = Ebird.Resolved response ->
  Ebird.ok response = true ->
  Ebird.json response = Ebird.Array observations ->
  Forall (fun o => Ebird.distance o = None /\ getTime (Ebird.obsDt o) <> None)
         observations ->
  exists sorted,
    Ebird.fetchRecentObservations_browser getTime fetch speciesCode latitude longitude
      radiusMiles lookBackDays apiKey = Return sorted
    /\ Permutation sorted observations
    /\ StronglySorted (Inv.more_recent getTime) sorted.
Proof.
  intros Hkey Hfetch Hok Hjson Hall. exists (sort observations).
  split; [eapply fetch_browser_ok; eassumption|].
  split; [apply sort_perm|].
  apply (sort_sorted (Inv.more_recent getTime)
           (fun o => Ebird.distance o = None /\ getTime (Ebird.obsDt o) <> None));
    [| | |exact Hall].
  - intros a b c. unfold Inv.more_recent.
    destruct (getTime (Ebird.obsDt a)), (getTime (Ebird.obsDt b)),
      (getTime (Ebird.obsDt c)); try tauto. lia.
  - intros a b [Ha Ha'] [Hb Hb']. unfold Ebird.compareFn, Inv.more_recent.
    rewrite Ha. destruct (getTime (Ebird.obsDt a)), (getTime (Ebird.obsDt b));
      try congruence.
    intros H. apply Z.compare_gt_iff in H. lia.
  - intros a b [Ha Ha'] [Hb Hb']. unfold Ebird.compareFn, Inv.more_recent.
    rewrite Ha. destruct (getTime (Ebird.obsDt a)), (getTime (Ebird.obsDt b));
      congruence.
Qed.

End Browser_facts.

(** ** Concrete runs of the added code *)

Example parseInt_samples :
  Fixture.parseInt "5" = Some 5 /\ Fixture.parseInt " 12abc" = Some 12
  /\ Fixture.parseInt "-7" = Some (-7) /\ Fixture.parseInt "abc" = None
  /\ Fixture.parseInt "" = None.
Proof. vm_compute. auto 6. Qed.

Lemma fixture_database_well_formed : Inv.well_formed Fixture.database.
Proof.
  split.
  - repeat constructor; simpl; lia.
  - apply (bool_decide_unpack _). vm_compute. exact I.
Defined.

Lemma sample_rows_valid :
  Forall Inv.valid_row (Db.rows Fixture.database).
Proof.
  repeat constructor; simpl; try lia; try reflexivity;
    unfold Qle; simpl; lia.
Defined.

Lemma createSubscription_reads_back_witness :
  exists row,
    Db.createSubscription Iso.toISOString Sample.at_10_05 Fixture.input
      Fixture.database
    = Return (Some row,
              Db.mkDatabase (Db.rows Fixture.database ++ [row])%list (Db.id row))
    /\ Db.sequence Fixture.database < Db.id row.
Proof.
  destruct (createSubscription_reads_back Iso.toISOString Sample.at_10_05
              Fixture.input Fixture.database) as (row & H1 & _ & _ & H2 & _).
  - vm_compute. reflexivity.
  - exists row. split; assumption.
Defined.

Lemma primary_key_is_kept_witness :
  Inv.well_formed (Db.delete_row Fixture.database 3).
Proof.
  apply (primary_key_is_kept Iso.toISOString Fixture.database).
  exact fixture_database_well_formed.
Defined.

Lemma deleted_id_is_never_reused_witness :
  Db.getSubscriptionById [Sample.healthy; Fixture.created_row] 3 = None.
Proof.
  apply (deleted_id_is_never_reused Iso.toISOString Sample.at_10_05 Fixture.input
           Fixture.database 3 Sample.fresh (Some Fixture.created_row)
           (Db.mkDatabase [Sample.healthy; Fixture.created_row] 6)).
  - exact fixture_database_well_formed.
  - vm_compute. reflexivity.
  - vm_compute. reflexivity.
  - vm_compute. reflexivity.
Defined.

Lemma post_keeps_rows_valid_witness :
  Forall Inv.valid_row [Sample.fresh; Sample.healthy; Fixture.created_row].
Proof.
  apply (post_keeps_rows_valid Iso.toISOString Sample.at_10_05
           (Server.JObject Fixture.fields) Fixture.database
           (Server.mkReply 201 (Server.Created (Some Fixture.created_row)))
           (Db.mkDatabase [Sample.fresh; Sample.healthy; Fixture.created_row] 6)).
  - vm_compute. reflexivity.
  - exact sample_rows_valid.
  - vm_compute. reflexivity.
Defined.

Lemma lookBackDays_defaults_to_3_witness :
  Server.safeParse (Server.JObject Fixture.fields) = Some Fixture.input
  /\ Db.Input.lookBackDays Fixture.input = 3.
Proof.
  assert (H : Server.safeParse (Server.JObject Fixture.fields) = Some Fixture.input)
    by (vm_compute; reflexivity).
  split; [exact H|].
  exact (proj1 (lookBackDays_defaults_to_3 Fixture.fields) eq_refl Fixture.input H).
Defined.

Lemma delete_route_is_idempotent_witness :
  fst (Server.delete_subscription Fixture.parseInt "3" Fixture.database)
  = Server.mkReply 204 Server.NoContent
  /\ fst (Server.delete_subscription Fixture.parseInt "9" Fixture.database)
     = Server.mkReply 204 Server.NoContent
  /\ Server.delete_subscription Fixture.parseInt "x" Fixture.database
     = (Server.mkReply 400 (Server.Failure "Invalid id parameter"), Fixture.database).
Proof.
  split; [|split].
  - exact (proj1 (proj1 (proj2 (delete_route_is_idempotent Fixture.parseInt "3"
                                  Fixture.database)) 3 eq_refl)).
  - exact (proj1 (proj1 (proj2 (delete_route_is_idempotent Fixture.parseInt "9"
                                  Fixture.database)) 9 eq_refl)).
  - exact (proj1 (delete_route_is_idempotent Fixture.parseInt "x" Fixture.database)
             eq_refl).
Defined.

Lemma continue_is_silent_witness :
  snd (processSubscription Iso.parse Iso.toISOString Sample.config
         (Sample.env_ok (Sample.feed_of Sample.snapshot_S101) Sample.at_12_05)
         Sample.notified_at_10 (Sample.empty_world [Sample.notified_at_10]))
  = Sample.empty_world [Sample.notified_at_10].
Proof.
  apply (continue_is_silent Iso.parse Iso.toISOString Sample.config
           (Sample.env_ok (Sample.feed_of Sample.snapshot_S101) Sample.at_12_05)
           Sample.notified_at_10 (Sample.empty_world [Sample.notified_at_10])
           Throttled).
  - vm_compute. reflexivity.
  - discriminate.
Defined.

Lemma store_failure_repeats_alert_witness :
  processSubscription Iso.parse Iso.toISOString Sample.config
    (Fixture.env_store_down (Sample.feed_of Sample.snapshot_single) Sample.at_10_05)
    Sample.fresh (Sample.empty_world [Sample.fresh])
  = (Throw (mkError "SQLITE_BUSY: database is locked"),
     mkWorld [Sample.fresh]
       ([] ++ [alert Sample.config Sample.fresh
                 (Sample.sighting "S100" "2024-01-01T10:00:00.000Z") []])
       []).
Proof.
  apply (store_failure_repeats_alert Iso.parse Iso.toISOString Sample.config
           (Fixture.env_store_down (Sample.feed_of Sample.snapshot_single)
              Sample.at_10_05)
           (Sample.env_ok (Sample.feed_of Sample.snapshot_single) Sample.at_12_05)
           Sample.fresh (Ebird.Observations Sample.snapshot_single)
           (Sample.sighting "S100" "2024-01-01T10:00:00.000Z") []
           (Sample.empty_world [Sample.fresh])
           (mkError "SQLITE_BUSY: database is locked"));
    vm_compute; reflexivity.
Defined.

Lemma unset_cursor_takes_whole_snapshot_witness :
  candidates Iso.parse Sample.fresh Sample.snapshot_ahead_of_clock
  = Sample.snapshot_ahead_of_clock.
Proof.
  apply (unset_cursor_takes_whole_snapshot Iso.parse Iso.toISOString Sample.config
           (Sample.env_ok (Sample.feed_of Sample.snapshot_ahead_of_clock)
              Sample.at_12_05)
           Sample.fresh (Sample.sighting "S098" "2024-01-01T08:00:00.000Z")
           [Sample.sighting "S100" "2024-01-01T12:00:00.000Z";
            Sample.sighting "S101" "2024-01-01T13:30:00.000Z"]
           (Sample.empty_world [Sample.fresh]));
    reflexivity.
Defined.

Lemma startNotifier_throws_only_in_setup_witness :
  startNotifier Iso.parse Iso.toISOString Fixture.host_ok Fixture.config_no_key
    (Sample.env_ok (Sample.feed_of Sample.snapshot_single) Sample.at_10_05)
    (Sample.empty_world [Sample.fresh])
  = (Throw (mkError "EBIRD_API_KEY is required to start the notifier"),
     Sample.empty_world [Sample.fresh])
  /\ fst (startNotifier Iso.parse Iso.toISOString Fixture.host_strict Sample.config
            (Sample.env_ok (Sample.answering Sample.server_error) Sample.at_10_05)
            (Sample.empty_world [Sample.fresh]))
     = Return tt
  /\ table (snd (startNotifier Iso.parse Iso.toISOString Fixture.host_strict
                   Fixture.config_bad_sid
                   (Sample.env_ok (Sample.feed_of Sample.snapshot_single)
                      Sample.at_10_05)
                   (Sample.empty_world [Sample.fresh])))
     = [Sample.fresh].
Proof.
  split; [|split].
  - apply (startNotifier_throws_only_in_setup Iso.parse Iso.toISOString
             Fixture.host_ok Fixture.config_no_key). reflexivity.
  - apply (startNotifier_throws_only_in_setup Iso.parse Iso.toISOString
             Fixture.host_strict Sample.config).
    + discriminate.
    + reflexivity.
    + reflexivity.
  - apply (proj2 (proj2 (startNotifier_throws_only_in_setup Iso.parse Iso.toISOString
                           Fixture.host_strict Fixture.config_bad_sid
                           (Sample.env_ok (Sample.feed_of Sample.snapshot_single)
                              Sample.at_10_05)
                           (Sample.empty_world [Sample.fresh])))
             (mkError "accountSid must start with AC")).
    vm_compute. reflexivity.
Defined.

(** With a SID the constructor refuses, [startNotifier] throws and the
    startup cycle does not run. *)
Example startNotifier_bad_sid :
  startNotifier Iso.parse Iso.toISOString Fixture.host_strict Fixture.config_bad_sid
    (Sample.env_ok (Sample.feed_of Sample.snapshot_single) Sample.at_10_05)
    (Sample.empty_world [Sample.fresh])
  = (Throw (mkError "accountSid must start with AC"),
     Sample.empty_world [Sample.fresh]).
Proof. vm_compute. reflexivity. Qed.

(** From 2^53 the rowid read back is the rounded JS number: the insert
    appends row 2^53 + 1 and the call returns the row of id 2^53. *)
Example read_back_beyond_2_53 :
  Db.createSubscription Iso.toISOString Sample.at_10_05 Fixture.input
    Fixture.database_at_2_53
  = Return
      (Some (Sample.subscription 9007199254740992 None None),
       Db.mkDatabase
         [ Sample.subscription 9007199254740992 None None;
           Db.mkSubscription 9007199254740993 "+1 (555) 010-0103" "baleag"
             "Bald Eagle" "Albany, NY" (4265 # 100) (-7375 # 100) 50 3
             "2024-01-01T10:05:00.000Z" None None ]
         9007199254740993).
Proof. vm_compute. reflexivity. Qed.

Lemma browser_feed_nearest_first_witness :
  exists sorted,
    Ebird.fetchRecentObservations_browser Iso.parse
      (Sample.feed_of Fixture.by_distance) "norcar" (4071 # 100) (-7400 # 100)
      25 3 "ebird-key" = Return sorted
    /\ Permutation sorted Fixture.by_distance
    /\ (Forall (fun o => Ebird.distance o <> None) Fixture.by_distance ->
        StronglySorted Inv.closer sorted).
Proof.
  apply (browser_feed_nearest_first Iso.parse (Sample.feed_of Fixture.by_distance)
           "norcar" (4071 # 100) (-7400 # 100) 25 3 "ebird-key"
           (Ebird.mkResponse 200 "OK" "" (Ebird.Array Fixture.by_distance))).
  - discriminate.
  - reflexivity.
  - reflexivity.
  - reflexivity.
Defined.

Example browser_sorts_by_distance :
  Ebird.fetchRecentObservations_browser Iso.parse
    (Sample.feed_of Fixture.by_distance) "norcar" (4071 # 100) (-7400 # 100)
    25 3 "ebird-key"
  = Return [ Fixture.sighting_at (4 # 10) "S1"; Fixture.sighting_at (25 # 10) "S2";
             Fixture.sighting_at (73 # 10) "S3" ].
Proof. vm_compute. reflexivity. Qed.

Lemma browser_feed_most_recent_first_witness :
  exists sorted,
    Ebird.fetchRecentObservations_browser Iso.parse
      (Sample.feed_of Sample.snapshot_past) "norcar" (4071 # 100) (-7400 # 100)
      25 3 "ebird-key" = Return sorted
    /\ Permutation sorted Sample.snapshot_past
    /\ StronglySorted (Inv.more_recent Iso.parse) sorted.
Proof.
  apply (browser_feed_most_recent_first Iso.parse (Sample.feed_of Sample.snapshot_past)
           "norcar" (4071 # 100) (-7400 # 100) 25 3 "ebird-key"
           (Ebird.mkResponse 200 "OK" "" (Ebird.Array Sample.snapshot_past))).
  - discriminate.
  - reflexivity.
  - reflexivity.
  - reflexivity.
  - repeat constructor; vm_compute; discriminate.
Defined.
